(** * Signal-analysis page of the IND320 Streamlit application

    A shallow embedding of [Pages/3_STL_and_Spectrogram.py]: the two
    analysis functions [stl_analysis] and [spectrogram_analysis], the
    series selection they share (filter, sort, forward/backward fill) and
    the part of the page script that calls them (select boxes, sliders,
    buttons, outer handler). Beside it: the display names and the
    navigation of the runner [streamlit_app.py], [pretty_name] of
    [StreamlitApplication/Pages/1_Data_Table.py], and the column helpers
    of [DataApp/app.py].

    Conventions of the embedding.
    - Python integers are [Z]; [//] and [%] are [Z.div] and [Z.modulo]
      (both round towards minus infinity, as Python does).
    - [quantityKwh] is a binary64 float ([PrimFloat.float]); a missing
      value is NaN, as in pandas.
    - A call either returns a value or raises: the [outcome] type. The
      analysis functions return the Python pair [(fig, error)].
    - The numerical primitives the page takes from other packages
      (statsmodels' STL, scipy's spectrogram, NumPy's FFT, window and
      logarithm) are not part of this repository: they are fields of the
      [Runtime] record, fixed when the module is imported. Where the
      NumPy branch is set beside scipy, scipy's segment count and time
      bins are taken from its documentation. *)

From Stdlib Require Import ZArith List String Ascii Bool Lia PrimFloat DecimalString.
From Stdlib Require Import FloatOps SpecFloat FloatAxioms.
From Stdlib Require Import QArith Qround Sorted Permutation.
From stdpp Require Import list.
Import ListNotations.

Local Open Scope Z_scope.

(** ** Returning or raising *)

Inductive outcome (A : Type) : Type :=
| Return (a : A)
| Raise (e : string).

Arguments Return {A} a.
Arguments Raise {A} e.

Definition bind {A B : Type} (c : outcome A) (k : A -> outcome B) : outcome B :=
  match c with
  | Return a => k a
  | Raise e => Raise e
  end.

Notation "x <- c ;; k" := (bind c (fun x => k))
  (at level 100, c at next level, right associativity).

(** ** The dataset *)

Record Row : Type := {
  priceArea : string;
  productionGroup : string;
  startTime_parsed : Z;
  quantityKwh : float
}.

Definition DataFrame : Type := list Row.

(** [df[(df['priceArea'] == price_area) & (df['productionGroup'] == production_group)]] *)
Definition select_rows (df : DataFrame) (price_area production_group : string) : DataFrame :=
  List.filter
    (fun r => String.eqb (priceArea r) price_area
              && String.eqb (productionGroup r) production_group)
    df.

(** [filtered.sort_values('startTime_parsed')]: ascending by timestamp.
    When no two rows share a timestamp the ascending order is unique, and
    the insertion sort below returns it, as any sort does. pandas' default
    sort is not stable: among rows of equal timestamp it promises no
    order, and the order the insertion gives them (their incoming one) is
    not pandas'. Statements that depend on where such rows land are made
    for [distinct_timestamps] only. *)
Fixpoint insert_row (r : Row) (l : list Row) : list Row :=
  match l with
  | [] => [r]
  | x :: rest =>
      if startTime_parsed r <=? startTime_parsed x
      then r :: l
      else x :: insert_row r rest
  end.

Definition sort_values (l : list Row) : list Row :=
  fold_right insert_row [] l.

(** ** Filling missing values *)

(** [Series.ffill()]: a missing value takes the nearest earlier valid
    value; a leading gap stays missing. [prev] is that earlier value, if
    one was seen. *)
Fixpoint ffill_from (prev : option float) (l : list float) : list float :=
  match l with
  | [] => []
  | x :: rest =>
      if is_nan x
      then match prev with
           | Some p => p
           | None => x
           end :: ffill_from prev rest
      else x :: ffill_from (Some x) rest
  end.

Definition ffill (l : list float) : list float := ffill_from None l.

(** [Series.bfill()]: a missing value takes the nearest later valid
    value; a trailing gap stays missing. *)
Fixpoint bfill (l : list float) : list float :=
  match l with
  | [] => []
  | x :: rest =>
      let rest' := bfill rest in
      if is_nan x
      then match rest' with
           | y :: _ => y
           | [] => x
           end :: rest'
      else x :: rest'
  end.

(** A value is present when it is not NaN. *)
Definition valid (x : float) : Prop := is_nan x = false.

(** Missing values only at internal positions: the first and the last
    value of the series are present. *)
Definition internal_gaps_only (l : list float) : Prop :=
  match l with
  | [] => False
  | x :: _ => valid x /\ valid (List.last l x)
  end.

(** The series both analyses work on: the selected rows in time order. *)
Definition selected_values (df : DataFrame) (price_area production_group : string) : list float :=
  map quantityKwh (sort_values (select_rows df price_area production_group)).

(** ** Results of the numerical primitives *)

(** What [STL(...).fit()] gives back: [result.trend], [result.seasonal]
    and [result.resid]. *)
Module DecomposeResult.
Record t : Type := {
  trend : list float;
  seasonal : list float;
  resid : list float
}.
End DecomposeResult.

(** [pd.Series(values, index=...)] *)
Record Series : Type := {
  index : list Z;
  values : list float
}.

(** [(frequencies, times, Sxx)]; [Sxx] is held column by column: entry
    [i] is [Sxx[:, i]], the spectrum of segment [i]. *)
Definition Spectrogram : Type := (list float * list float * list (list float))%type.

(** ** The imported packages *)

Record NumPy : Type := {
  hanning : Z -> list float;              (* np.hanning(M) *)
  rfft_abs : list float -> list float;    (* np.abs(np.fft.rfft(x)) *)
  rfftfreq : Z -> list float;             (* np.fft.rfftfreq(n, d=1.0) *)
  np_sum : list float -> float;           (* np.sum(x) *)
  log10 : float -> float;                 (* np.log10, per element *)
  astype_float : Z -> float;              (* .astype(float), per element *)
  empty_cell : Z -> Z -> float            (* what np.empty leaves at [r, c] *)
}.

(** [STL(ts, period=, seasonal=, trend=, robust=).fit()] *)
Definition STL_type : Type :=
  Series -> Z -> Z -> option Z -> bool -> outcome DecomposeResult.t.

(** [signal.spectrogram(x, fs=, window=, nperseg=, noverlap=)] *)
Definition spectrogram_type : Type :=
  list float -> float -> string -> Z -> Z -> outcome Spectrogram.

(** The module globals set by the two guarded imports at the top of the
    page, and NumPy. *)
Record Runtime : Type := {
  STL : option STL_type;
  _STL_AVAILABLE : bool;
  signal : option spectrogram_type;
  _SCIPY_AVAILABLE : bool;
  np : NumPy
}.

(** The guarded imports: [installed_*] is [None] when the import raises. *)
Definition import_page (installed_STL : option STL_type)
    (installed_signal : option spectrogram_type) (numpy : NumPy) : Runtime :=
  {| STL := installed_STL;
     _STL_AVAILABLE := match installed_STL with Some _ => true | None => false end;
     signal := installed_signal;
     _SCIPY_AVAILABLE := match installed_signal with Some _ => true | None => false end;
     np := numpy |}.

(** ** Figures *)

(** One [axes.plot(x, y)] panel with its [set_ylabel]. matplotlib raises
    when [x] and [y] differ in length. *)
Record Panel : Type := {
  ylabel : string;
  xdata : list Z;
  ydata : list float
}.

Definition plot (label : string) (x : list Z) (y : list float) : outcome Panel :=
  if (length x =? length y)%nat
  then Return {| ylabel := label; xdata := x; ydata := y |}
  else Raise "ValueError: x and y must have same first dimension".

Record StlFigure : Type := {
  stl_title : string;
  axes : list Panel
}.

Record SpectrogramFigure : Type := {
  spec_title : string;
  spec_times : list float;
  spec_frequencies : list float;
  spec_Sxx_db : list (list float)
}.

(** ** Messages *)

Definition STL_UNAVAILABLE : string :=
  "STL decomposition is unavailable because statsmodels could not be imported; "
  ++ "please install statsmodels in your environment (e.g. pip install statsmodels)".

Definition NO_DATA : string := "No data available for selected combination".

Definition INVALID_WINDOW : string := "Invalid window settings for spectrogram".

Definition NOT_ENOUGH_DATA : string :=
  "Not enough data for selected window/overlap settings".

(** ** STL decomposition *)

(** [stl_analysis(df, price_area, production_group, period, seasonal, trend, robust)] *)
Definition stl_analysis (rt : Runtime) (df : DataFrame)
    (price_area production_group : string)
    (period seasonal : Z) (trend : option Z) (robust : bool)
  : outcome (option StlFigure * option string) :=
  if negb (_STL_AVAILABLE rt) then Return (None, Some STL_UNAVAILABLE)
  else
    let filtered := select_rows df price_area production_group in
    if (length filtered =? 0)%nat then Return (None, Some NO_DATA)
    else
      let filtered := sort_values filtered in
      let ts := {| index := map startTime_parsed filtered;
                   values := bfill (ffill (map quantityKwh filtered)) |} in
      match STL rt with
      | None => Raise "TypeError: 'NoneType' object is not callable"
      | Some stl =>
          result <- stl ts period seasonal trend robust ;;
          ax0 <- plot "Original" (index ts) (values ts) ;;
          ax1 <- plot "Trend" (index ts) (DecomposeResult.trend result) ;;
          ax2 <- plot "Seasonal" (index ts) (DecomposeResult.seasonal result) ;;
          ax3 <- plot "Residual" (index ts) (DecomposeResult.resid result) ;;
          Return
            (Some {| stl_title := "STL Decomposition: " ++ production_group
                                  ++ " in " ++ price_area;
                     axes := [ax0; ax1; ax2; ax3] |},
             None)
      end.

(** ** Spectrogram *)

(** [len(x)] as a Python integer. *)
Definition len {A : Type} (l : list A) : Z := Z.of_nat (length l).

(** The slice [l[a:b]]: a negative bound counts from the end, and both
    bounds are clamped to the sequence. *)
Definition py_slice {A : Type} (l : list A) (a b : Z) : list A :=
  let clamp i := if i <? 0 then Z.max 0 (i + len l) else Z.min i (len l) in
  firstn (Z.to_nat (clamp b - clamp a)) (skipn (Z.to_nat (clamp a)) l).

(** [np.pad(seg, (0, after), 'constant')] *)
Definition np_pad (seg : list float) (after : Z) : list float :=
  (seg ++ replicate (Z.to_nat after) 0%float)%list.

(** [range(n)] and a [for] loop over it, threading the loop's state. *)
Definition range (n : Z) : list Z := seqZ 0 n.

Definition for_range {S : Type} (n : Z) (body : Z -> S -> S) (s : S) : S :=
  fold_left (fun acc i => body i acc) (range n) s.

(** [step = max(1, nperseg - noverlap)] *)
Definition step (nperseg noverlap : Z) : Z := Z.max 1 (nperseg - noverlap).

(** [segments = max(0, (n - noverlap + step - 1) // step)] *)
Definition segments (n nperseg noverlap : Z) : Z :=
  Z.max 0 ((n - noverlap + step nperseg noverlap - 1) / step nperseg noverlap).

(** The segment of iteration [i]: [production[start:start + nperseg]],
    zero-padded on the right when it comes out short. *)
Definition segment (production : list float) (nperseg noverlap i : Z) : list float :=
  let start := i * step nperseg noverlap in
  let seg := py_slice production start (start + nperseg) in
  if len seg <? nperseg then np_pad seg (nperseg - len seg) else seg.

Set Warnings "-inexact-float".

(** [(np.abs(np.fft.rfft(seg * window)) ** 2) / (win_norm + 1e-16)].
    [seg] and [window] both have [nperseg] entries when the loop gets
    here, so the product is taken entry by entry. *)
Definition power_column (npy : NumPy) (window : list float) (win_norm : float)
    (seg : list float) : list float :=
  let fft_abs := rfft_abs npy (zip_with PrimFloat.mul seg window) in
  map (fun a => (a * a) / (win_norm + 1e-16))%float fft_abs.

(** [np.empty((rows, cols))], column by column; the cells hold whatever
    the runtime left there. *)
Definition np_empty (npy : NumPy) (rows cols : Z) : list (list float) :=
  map (fun j => map (fun r => empty_cell npy r j) (range rows)) (range cols).

(** One pass of the segment loop: [Sxx[:, i] = ...]. *)
Definition loop_body (npy : NumPy) (production : list float) (nperseg noverlap : Z)
    (window : list float) (win_norm : float) (i : Z) (Sxx : list (list float))
  : list (list float) :=
  <[Z.to_nat i := power_column npy window win_norm (segment production nperseg noverlap i)]> Sxx.

(** The NumPy branch of [spectrogram_analysis]: an early [return None, msg]
    on the left, [(frequencies, times, Sxx)] on the right. *)
Definition fallback_stft (npy : NumPy) (production : list float)
    (window_length window_overlap : Z) : string + Spectrogram :=
  let n := len production in
  let nperseg := window_length in
  let noverlap := window_overlap in
  if (n <? 1) || (nperseg <=? 0) then inl INVALID_WINDOW
  else
    let segs := segments n nperseg noverlap in
    if segs <=? 0 then inl NOT_ENOUGH_DATA
    else
      let frequencies := rfftfreq npy nperseg in
      let times := map (fun i => astype_float npy (i * step nperseg noverlap)) (range segs) in
      let Sxx := np_empty npy (len frequencies) segs in
      let window := hanning npy nperseg in
      let win_norm := np_sum npy (map (fun w => w * w)%float window) in
      let Sxx := for_range segs (loop_body npy production nperseg noverlap window win_norm) Sxx in
      inr (frequencies, times, Sxx).

(** [10 * np.log10(Sxx + 1e-10)] *)
Definition to_db (npy : NumPy) (Sxx : list (list float)) : list (list float) :=
  map (map (fun p => 10 * log10 npy (p + 1e-10))%float) Sxx.

(** [str(i)] for an integer. *)
Definition str (i : Z) : string := NilZero.string_of_int (Z.to_int i).

Definition newline : string := String (ascii_of_nat 10) EmptyString.

(** [spectrogram_analysis(df, price_area, production_group, window_length, window_overlap)] *)
Definition spectrogram_analysis (rt : Runtime) (df : DataFrame)
    (price_area production_group : string) (window_length window_overlap : Z)
  : outcome (option SpectrogramFigure * option string) :=
  let filtered := select_rows df price_area production_group in
  if (length filtered =? 0)%nat then Return (None, Some NO_DATA)
  else
    let filtered := sort_values filtered in
    let production := bfill (ffill (map quantityKwh filtered)) in
    computed <-
      match _SCIPY_AVAILABLE rt, signal rt with
      | true, Some scipy_signal =>
          s <- scipy_signal production 1%float "hann"%string window_length window_overlap ;;
          Return (inr s)
      | _, _ => Return (fallback_stft (np rt) production window_length window_overlap)
      end ;;
    match computed with
    | inl error => Return (None, Some error)
    | inr (frequencies, times, Sxx) =>
        Return
          (Some {| spec_title :=
                     "Spectrogram: " ++ production_group ++ " Production in " ++ price_area
                     ++ newline ++ "Window: " ++ str window_length
                     ++ "h, Overlap: " ++ str window_overlap ++ "h";
                   spec_times := times;
                   spec_frequencies := frequencies;
                   spec_Sxx_db := to_db (np rt) Sxx |},
           None)
    end.

(** ** The page script *)

Definition stl_interpretation : string :=
  "- Trend: Shows long-term changes in production" ++ newline
  ++ "- Seasonal: Reveals daily/weekly patterns" ++ newline
  ++ "- Residual: Contains irregular variations and noise".

Definition spec_key_freq : string :=
  "- Daily cycle: 0.042 cycles/hour (1/24)" ++ newline
  ++ "- Weekly cycle: 0.006 cycles/hour (1/168)" ++ newline
  ++ "- Brighter colors: Higher power at that frequency/time".

(** What the page puts on the screen. *)
Inductive Shown : Type :=
| st_error (msg : string)
| st_exception (e : string)
| st_pyplot_stl (fig : option StlFigure)
| st_pyplot_spectrogram (fig : option SpectrogramFigure)
| st_markdown (text : string)
| st_info (text : string).

(** [if error:] on a value that is [None] or a string. *)
Definition truthy (error : option string) : bool :=
  match error with
  | None => false
  | Some EmptyString => false
  | Some _ => true
  end.

(** The page's outer [except Exception as e]. *)
Definition catch_all (e : string) : list Shown :=
  [st_error ("An error occurred: " ++ e); st_exception e].

(** The page's handling of the pair [stl_analysis] returns, inside the
    outer [try]. *)
Definition show_stl (result : outcome (option StlFigure * option string)) : list Shown :=
  match result with
  | Raise e => catch_all e
  | Return (fig, error) =>
      if truthy error
      then match error with Some msg => [st_error msg] | None => [] end
      else [st_pyplot_stl fig; st_markdown "---"; st_info stl_interpretation]
  end.

(** The "Run STL Analysis" button with the widget values of the first tab:
    [if stl_seasonal % 2 == 0: stl_seasonal += 1], then the call, which
    leaves [trend] at its default [None]. *)
Definition run_stl_button (rt : Runtime) (df : DataFrame)
    (stl_price_area stl_prod_group : string) (stl_period stl_seasonal : Z)
    (stl_robust : bool) : list Shown :=
  let stl_seasonal := if stl_seasonal mod 2 =? 0 then stl_seasonal + 1 else stl_seasonal in
  show_stl
    (stl_analysis rt df stl_price_area stl_prod_group stl_period stl_seasonal None stl_robust).

(** The "Create Spectrogram" button of the second tab. *)
Definition run_spectrogram_button (rt : Runtime) (df : DataFrame)
    (spec_price_area spec_prod_group : string) (spec_window spec_overlap : Z)
  : list Shown :=
  match spectrogram_analysis rt df spec_price_area spec_prod_group spec_window spec_overlap with
  | Raise e => catch_all e
  | Return (fig, error) =>
      if truthy error
      then match error with Some msg => [st_error msg] | None => [] end
      else [st_pyplot_spectrogram fig; st_markdown "---"; st_info spec_key_freq]
  end.

(** ** The spectrogram sliders *)

(** [int(x)] for a float: truncation towards zero; NaN and the infinities
    raise. *)
Definition int_of_float (x : float) : outcome Z :=
  match Prim2SF x with
  | S754_zero _ => Return 0
  | S754_finite s m e =>
      let magnitude := if 0 <=? e then Z.pos m * 2 ^ e else Z.pos m / 2 ^ (- e) in
      Return (if s then - magnitude else magnitude)
  | S754_infinity _ => Raise "OverflowError: cannot convert float infinity to integer"
  | S754_nan => Raise "ValueError: cannot convert float NaN to integer"
  end.

(** An integer operand of a float product, converted by doubling; the
    conversion is exact below [2^53], far above the sliders' range. *)
Fixpoint float_of_positive (p : positive) : float :=
  match p with
  | xH => 1
  | xO q => 2 * float_of_positive q
  | xI q => 2 * float_of_positive q + 1
  end%float.

Definition float_of_int (i : Z) : float :=
  match i with
  | Z0 => 0
  | Zpos p => float_of_positive p
  | Zneg p => - float_of_positive p
  end%float.

(** [max_value=int(spec_window * 0.9)] of the overlap slider. *)
Definition spec_overlap_max (spec_window : Z) : outcome Z :=
  int_of_float (float_of_int spec_window * 0.9)%float.

(** [value=int(spec_window * 0.5)], where the overlap slider starts. *)
Definition spec_overlap_default (spec_window : Z) : outcome Z :=
  int_of_float (float_of_int spec_window * 0.5)%float.

(** ** The select boxes of the analysis page *)

(** [Series.unique()]: the distinct values in order of first appearance;
    [seen] holds the values met so far. *)
Fixpoint unique_from (seen : list string) (l : list string) : list string :=
  match l with
  | [] => []
  | x :: rest =>
      if existsb (String.eqb x) seen
      then unique_from seen rest
      else x :: unique_from (x :: seen) rest
  end.

Definition unique (l : list string) : list string := unique_from [] l.

(** [sorted(...)] on strings: ascending and stable. *)
Fixpoint insert_sorted (x : string) (l : list string) : list string :=
  match l with
  | [] => [x]
  | y :: rest => if String.leb x y then x :: l else y :: insert_sorted x rest
  end.

Definition sorted (l : list string) : list string := fold_right insert_sorted [] l.

(** [price_areas = sorted(df['priceArea'].unique())] *)
Definition price_areas (df : DataFrame) : list string :=
  sorted (unique (map priceArea df)).

(** [production_groups = sorted(df['productionGroup'].unique())] *)
Definition production_groups (df : DataFrame) : list string :=
  sorted (unique (map productionGroup df)).

(** ** Display names ([streamlit_app.py], [StreamlitApplication/Pages/1_Data_Table.py]) *)

(** Names are taken as ASCII text, one [ascii] per character, as the file
    and column names of the repository are. *)
Definition code (c : ascii) : nat := nat_of_ascii c.

Definition ascii_only (s : string) : bool :=
  forallb (fun c => (code c <? 128)%nat) (list_ascii_of_string s).

(** The classes [\d] and [\s] of a pattern, on ASCII. *)
Definition is_digit (c : ascii) : bool := ((48 <=? code c) && (code c <=? 57))%nat.

Definition is_space (c : ascii) : bool :=
  (((9 <=? code c) && (code c <=? 13)) || ((28 <=? code c) && (code c <=? 32)))%nat.

Definition is_upper (c : ascii) : bool := ((65 <=? code c) && (code c <=? 90))%nat.

Definition is_lower (c : ascii) : bool := ((97 <=? code c) && (code c <=? 122))%nat.

Definition is_cased (c : ascii) : bool := is_upper c || is_lower c.

Definition upper_char (c : ascii) : ascii :=
  if is_lower c then ascii_of_nat (code c - 32) else c.

Definition lower_char (c : ascii) : ascii :=
  if is_upper c then ascii_of_nat (code c + 32) else c.

(** The class [[\d_\-\s]]. *)
Definition is_numbering (c : ascii) : bool :=
  is_digit c || Ascii.eqb c "_" || Ascii.eqb c "-" || is_space c.

(** [re.sub(r'^[\d_\-\s]+', '', name)]: the longest leading run of the
    class is removed. *)
Fixpoint strip_numbering (name : string) : string :=
  match name with
  | EmptyString => EmptyString
  | String c rest => if is_numbering c then strip_numbering rest else name
  end.

(** [s.replace("_", " ")] *)
Fixpoint replace_underscores (s : string) : string :=
  match s with
  | EmptyString => EmptyString
  | String c rest =>
      String (if Ascii.eqb c "_" then " "%char else c) (replace_underscores rest)
  end.

(** [s.title()]: a cased character is lowered after a cased character and
    raised anywhere else; other characters stay. *)
Fixpoint title_from (previous_is_cased : bool) (s : string) : string :=
  match s with
  | EmptyString => EmptyString
  | String c rest =>
      String (if previous_is_cased then lower_char c else upper_char c)
             (title_from (is_cased c) rest)
  end.

Definition title (s : string) : string := title_from false s.

(** [s.lower()] *)
Fixpoint lower (s : string) : string :=
  match s with
  | EmptyString => EmptyString
  | String c rest => String (lower_char c) (lower rest)
  end.

(** The display name [discover_pages] gives the page file [name]. *)
Definition display_name (name : string) : string :=
  let display_raw := strip_numbering name in
  title (replace_underscores display_raw).

(** [pretty_name(col)] *)
Definition pretty_name (col : string) : string :=
  title (replace_underscores col).

(** A string reads as a title: no cased character is lower case at the
    start of a word or upper case inside one. *)
Fixpoint titled_from (previous_is_cased : bool) (s : string) : bool :=
  match s with
  | EmptyString => true
  | String c rest =>
      (if previous_is_cased then negb (is_upper c) else negb (is_lower c))
      && titled_from (is_cased c) rest
  end.

Definition has_char (c : ascii) (s : string) : bool :=
  existsb (Ascii.eqb c) (list_ascii_of_string s).

(** ** The runner's navigation ([streamlit_app.py]) *)

(** An entry of [discover_pages()]: [(module_name, display, path)]. *)
Record Page : Type := {
  module_name : string;
  display : string;
  path : string
}.

(** [enumerate(pages)] *)
Definition enumerate {A : Type} (l : list A) : list (nat * A) :=
  combine (seq 0 (length l)) l.

(** [st.session_state['page']] after the sidebar has been drawn: the
    default when the key is missing, the Home button, then one button
    per page. [pressed i] is what the button with key [nav_i] returns. *)
Definition navigate (pages : list Page) (session : option string)
    (home_pressed : bool) (pressed : nat -> bool) : string :=
  let page := match session with Some p => p | None => "Home"%string end in
  let page := if home_pressed then "Home"%string else page in
  fold_left (fun page ip => if pressed (fst ip) then path (snd ip) else page)
            (enumerate pages) page.

(** The search for the page stored in the session, up to its [break]. *)
Fixpoint find_match (pages : list Page) (current : string) : option Page :=
  match pages with
  | [] => None
  | p :: rest => if String.eqb (path p) current then Some p else find_match rest current
  end.

(** What the runner draws below the sidebar. *)
Inductive Drawn : Type :=
| st_header (text : string)
| st_subheader (text : string)
| st_dataframe_head (rows : nat)
| st_write (text : string)
| st_warning (text : string)
| runner_error (text : string).

(** The body of the runner for the current page. [load_data] is what the
    guarded import and call of [Data_loader.load_data] give, reduced to
    the row and column counts the preview prints; [load_module] runs the
    page file (and its [main], when it has one). *)
Definition dispatch (load_data : outcome (Z * Z))
    (load_module : string -> string -> outcome unit)
    (pages : list Page) (current : string) : list Drawn :=
  if String.eqb current "Home" then
    st_header "Home"
    :: match load_data with
       | Return (rows, columns) =>
           [st_subheader "Preview (first 10 rows)"; st_dataframe_head 10;
            st_write ("Data has " ++ str rows ++ " rows and " ++ str columns ++ " columns.")]
       | Raise e => [st_warning ("Could not load data preview: " ++ e)]
       end
  else
    match find_match pages current with
    | None => [runner_error "Page not found or not discovered"]
    | Some p =>
        st_header (display p)
        :: match load_module (path p) (module_name p) with
           | Return _ => []
           | Raise e => [runner_error ("Error loading page " ++ display p ++ ": " ++ e)]
           end
    end.

(** ** Column helpers of [DataApp/app.py] *)

(** [$] at the end of a pattern: the end of the string, or the newline
    that ends it. *)
Definition at_end (s : string) : bool :=
  match s with
  | EmptyString => true
  | String c EmptyString => Ascii.eqb c (ascii_of_nat 10)
  | _ => false
  end.

(** [re.match(r"^\d{4}-\d{2}$", col)], and the same with [_] for [sep]. *)
Definition matches_year_month (sep : ascii) (col : string) : bool :=
  match col with
  | String y1 (String y2 (String y3 (String y4 (String s (String m1 (String m2 rest)))))) =>
      is_digit y1 && is_digit y2 && is_digit y3 && is_digit y4
      && Ascii.eqb s sep && is_digit m1 && is_digit m2 && at_end rest
  | _ => false
  end.

(** [re.match(r"(?i)^month(_|-)?\d+", col)] *)
Definition matches_month_number (col : string) : bool :=
  match col with
  | String c1 (String c2 (String c3 (String c4 (String c5 rest)))) =>
      String.eqb (lower (String c1 (String c2 (String c3 (String c4 (String c5 EmptyString))))))
                 "month"
      && match rest with
         | String c after =>
             is_digit c
             || ((Ascii.eqb c "_" || Ascii.eqb c "-")
                 && match after with
                    | String d _ => is_digit d
                    | EmptyString => false
                    end)
         | EmptyString => false
         end
  | _ => false
  end.

(** [col.lower() in ("jan", ..., "dec")] *)
Definition is_month_name (col : string) : bool :=
  existsb (String.eqb (lower col))
    ["jan"; "feb"; "mar"; "apr"; "may"; "jun"; "jul"; "aug"; "sep"; "oct"; "nov"; "dec"]%string.

(** The three branches of the loop of [guess_month_like_columns]. *)
Definition month_like (col : string) : bool :=
  (matches_year_month "-" col || matches_year_month "_" col)
  || matches_month_number col
  || is_month_name col.

(** [guess_month_like_columns(df)], from the column names of [df] and
    [pd.api.types.is_numeric_dtype(df[c])] for each of them. *)
Definition guess_month_like_columns (columns : list string)
    (is_numeric_dtype : string -> bool) : list string :=
  let month_cols := List.filter month_like columns in
  match month_cols with
  | [] => List.filter is_numeric_dtype columns
  | _ :: _ => month_cols
  end.

(** [l.index(x)]: the first position of [x], or a [ValueError]. *)
Fixpoint list_index (x : string) (l : list string) : outcome Z :=
  match l with
  | [] => Raise "ValueError"
  | y :: rest =>
      if String.eqb y x then Return 0
      else i <- list_index x rest ;; Return (i + 1)
  end.

(** The columns between the two ends chosen on the sliders of the plot
    page, when the data has no time column. *)
Definition chosen_cols (month_cols : list string) (start end_ : string)
  : outcome (list string) :=
  si <- list_index start month_cols ;;
  ei <- list_index end_ month_cols ;;
  Return (if si <=? ei
          then py_slice month_cols si (ei + 1)
          else py_slice month_cols ei (si + 1)).

(** ** Rows with distinct timestamps *)

(** No two of the rows share a timestamp, as in an hourly series. *)
Definition distinct_timestamps (rows : list Row) : Prop :=
  List.NoDup (map startTime_parsed rows).

(** ** The segments scipy documents *)

(** Modelled from the documentation of [scipy.signal.spectrogram], which
    is not part of this repository. With the arguments the page passes
    ([nperseg], [noverlap], the defaults for the rest) a series of
    [n >= nperseg] samples is cut into the full segments
    [x[i*(nperseg - noverlap) : i*(nperseg - noverlap) + nperseg]]: what
    is left after the last full segment is dropped, nothing is padded. *)
Definition scipy_segments (n nperseg noverlap : Z) : Z :=
  (n - noverlap) / (nperseg - noverlap).


(** The array [times] scipy returns, in binary64. *)
Definition scipy_times (n nperseg noverlap : Z) : list float :=
  map (fun i => float_of_int nperseg / 2
                + float_of_int i * float_of_int (nperseg - noverlap))%float
      (range (scipy_segments n nperseg noverlap)).

(** ** Additivity of a decomposition *)

(** [|a - b| <= 1e-6] in binary64; it is false when a side is NaN. *)
Definition within_tolerance (a b : float) : bool := (abs (a - b) <=? 1e-6)%float.

(** [trend + seasonal + residual = original] within the tolerance, value
    by value, for four sequences of one length. *)
Fixpoint additive (original trend_part seasonal_part residual : list float) : bool :=
  match original, trend_part, seasonal_part, residual with
  | [], [], [], [] => true
  | o :: original', t :: trend', s :: seasonal', r :: residual' =>
      within_tolerance (t + s + r)%float o && additive original' trend' seasonal' residual'
  | _, _, _, _ => false
  end.

(** The four panels of an STL figure read as a decomposition. *)
Definition figure_is_additive (fig : StlFigure) : bool :=
  match axes fig with
  | [original; trend_panel; seasonal_panel; residual_panel] =>
      additive (ydata original) (ydata trend_panel) (ydata seasonal_panel)
               (ydata residual_panel)
  | _ => false
  end.

(** ** Runtimes and data for running the model *)

Fixpoint float_of_pos (p : positive) : float :=
  match p with
  | xH => 1
  | xO q => 2 * float_of_pos q
  | xI q => 2 * float_of_pos q + 1
  end%float.

Definition float_of_Z (i : Z) : float :=
  match i with
  | Z0 => 0
  | Zpos p => float_of_pos p
  | Zneg p => - float_of_pos p
  end%float.

(** A NumPy stand-in for evaluating examples: an all-ones window, the
    first [n/2 + 1] samples in place of the transform, the identity in
    place of the logarithm, a left-to-right sum. The theorems below hold for every [NumPy]. *)
Definition example_numpy : NumPy :=
  {| hanning := fun M => repeat 1%float (Z.to_nat M);
     rfft_abs := fun x => firstn (length x / 2 + 1) x;
     rfftfreq := fun n => map (fun k => float_of_Z k / float_of_Z n)%float (range (n / 2 + 1));
     np_sum := fun x => fold_left PrimFloat.add x 0%float;
     log10 := fun x => x;
     astype_float := float_of_Z;
     empty_cell := fun _ _ => 0%float |}.

(** An STL stand-in that keeps the parameter check of statsmodels (an even
    or too small [seasonal] is refused) and returns the series as its own
    trend. *)
Definition example_STL : STL_type :=
  fun ts period seasonal trend robust =>
    if Z.even seasonal || (seasonal <? 3)
    then Raise "ValueError: seasonal must be an odd positive integer >= 3"
    else Return {| DecomposeResult.trend := values ts;
                   DecomposeResult.seasonal := map (fun _ => 0%float) (values ts);
                   DecomposeResult.resid := map (fun _ => 0%float) (values ts) |}.

(** statsmodels installed, scipy missing: the spectrogram takes the NumPy
    branch. *)
Definition runtime_without_scipy : Runtime :=
  import_page (Some example_STL) None example_numpy.

(** A scipy stand-in that refuses a window of zero or less, as scipy does,
    and otherwise returns an empty spectrogram. *)
Definition example_signal : spectrogram_type :=
  fun x fs window nperseg noverlap =>
    if nperseg <=? 0
    then Raise "ValueError: nperseg must be a positive integer"
    else Return ([], [], []).

(** Both statsmodels and scipy installed. *)
Definition runtime_with_scipy : Runtime :=
  import_page (Some example_STL) (Some example_signal) example_numpy.

(** Neither statsmodels nor scipy could be imported. *)
Definition runtime_bare : Runtime := import_page None None example_numpy.

Definition hour (t : Z) (kwh : float) : Row :=
  {| priceArea := "NO1"; productionGroup := "hydro";
     startTime_parsed := t; quantityKwh := kwh |}.

(** Ten gap-free samples. *)
Definition ten_samples : list float := [1; 2; 3; 4; 5; 6; 7; 8; 9; 10]%float.

(** A series that starts with a gap, and one with no value at all. *)
Definition leading_gap_df : DataFrame :=
  [hour 0 nan; hour 1 nan; hour 2 30%float; hour 3 nan].

Definition all_missing_df : DataFrame := [hour 0 nan; hour 1 nan].

(** The pages of the repository as the runner discovers them. *)
Definition example_pages : list Page :=
  [ {| module_name := "Pages.1_Data_Table"; display := "Data Table";
       path := "Pages/1_Data_Table.py" |};
    {| module_name := "Pages.2_Data_plot"; display := "Data Plot";
       path := "Pages/2_Data_plot.py" |};
    {| module_name := "Pages.3_STL_and_Spectrogram"; display := "Stl And Spectrogram";
       path := "Pages/3_STL_and_Spectrogram.py" |} ].

(** Column names of a wide table, and of a table without month columns. *)
Definition wide_columns : list string :=
  ["station"; "2020-01"; "2020-02"; "2020-03"; "elevation"]%string.

Definition weather_columns : list string :=
  ["time"; "temperature_2m"; "wind_speed_10m"]%string.

(** Five hourly rows of one series, out of order and with one gap. *)
Definition example_df : DataFrame :=
  [hour 2 nan; hour 0 10%float; hour 1 20%float; hour 4 50%float; hour 3 40%float;
   {| priceArea := "NO2"; productionGroup := "wind";
      startTime_parsed := 0; quantityKwh := 7%float |}].


(** * Properties *)

(** ** Selection and gap filling *)

Example selected_values_example :
  selected_values example_df "NO1" "hydro" = [10; 20; nan; 40; 50]%float.
Proof. reflexivity. Qed.

Example fill_example :
  bfill (ffill [nan; 1; nan; nan; 4; nan]%float) = [1; 1; 1; 1; 4; 4]%float.
Proof. reflexivity. Qed.

Lemma length_insert_row r l : length (insert_row r l) = S (length l).
Proof.
  induction l as [|x rest IH]; simpl; [reflexivity|].
  destruct (startTime_parsed r <=? startTime_parsed x); simpl; congruence.
Qed.

Lemma length_sort_values l : length (sort_values l) = length l.
Proof.
  induction l as [|r rest IH]; simpl; [reflexivity|].
  unfold sort_values in *. rewrite length_insert_row. congruence.
Qed.

(** [sort_values] reorders the rows and leaves them in ascending time. *)
Lemma insert_row_permutation r l : Permutation (insert_row r l) (r :: l).
Proof.
  induction l as [|x rest IH]; simpl; [reflexivity|].
  destruct (startTime_parsed r <=? startTime_parsed x); [reflexivity|].
  rewrite IH. apply perm_swap.
Qed.

Lemma sort_values_permutation l : Permutation (sort_values l) l.
Proof.
  induction l as [|r rest IH]; simpl; [reflexivity|].
  unfold sort_values in *. simpl. rewrite insert_row_permutation.
  now apply perm_skip.
Qed.

Lemma insert_row_ascending r l :
  Sorted (fun a b => startTime_parsed a <= startTime_parsed b) l ->
  Sorted (fun a b => startTime_parsed a <= startTime_parsed b) (insert_row r l).
Proof.
  induction 1 as [|x rest Hrest IH Hhd]; simpl.
  - repeat constructor.
  - destruct (Z.leb_spec (startTime_parsed r) (startTime_parsed x)) as [Hle|Hgt].
    + repeat constructor; assumption.
    + constructor; [exact IH|].
      destruct rest as [|y rest']; simpl.
      * constructor. lia.
      * inversion Hhd; subst.
        destruct (startTime_parsed r <=? startTime_parsed y); constructor; lia.
Qed.

Lemma sort_values_ascending l :
  Sorted (fun a b => startTime_parsed a <= startTime_parsed b) (sort_values l).
Proof.
  induction l as [|r rest IH]; [constructor|].
  apply insert_row_ascending, IH.
Qed.

(** With distinct timestamps there is one ascending order: whatever
    algorithm sorts the rows, the result is [sort_values]. *)
Lemma ascending_order_unique (l1 l2 : list Row) :
  distinct_timestamps l1 ->
  Permutation l1 l2 ->
  Sorted (fun a b => startTime_parsed a <= startTime_parsed b) l1 ->
  Sorted (fun a b => startTime_parsed a <= startTime_parsed b) l2 ->
  l1 = l2.
Proof.
  intros Hdistinct Hperm Hs1 Hs2.
  assert (Htrans : Relations_1.Transitive
                     (fun a b : Row => startTime_parsed a <= startTime_parsed b)).
  { intros a b c Hab Hbc. lia. }
  apply (Sorted_StronglySorted Htrans) in Hs1.
  apply (Sorted_StronglySorted Htrans) in Hs2.
  clear Htrans. revert l2 Hperm Hs2.
  induction l1 as [|a t1 IH]; intros l2 Hperm Hs2.
  - apply Permutation_nil in Hperm. now subst.
  - destruct l2 as [|b t2]; [apply Permutation_sym, Permutation_nil in Hperm; discriminate|].
    apply StronglySorted_inv in Hs1. destruct Hs1 as [Hs1 Ha].
    apply StronglySorted_inv in Hs2. destruct Hs2 as [Hs2 Hb].
    unfold distinct_timestamps in Hdistinct. simpl in Hdistinct.
    apply List.NoDup_cons_iff in Hdistinct. destruct Hdistinct as [Hfresh Hrest].
    rewrite List.Forall_forall in Ha, Hb.
    assert (Heq : a = b).
    { assert (Hina : In a (b :: t2)) by (apply (Permutation_in _ Hperm); now left).
      assert (Hinb : In b (a :: t1))
        by (apply (Permutation_in _ (Permutation_sym Hperm)); now left).
      destruct Hina as [Hba|Hina]; [now symmetry|].
      destruct Hinb as [Hab|Hinb]; [exact Hab|].
      exfalso. apply Hfresh.
      pose proof (Ha b Hinb). pose proof (Hb a Hina).
      replace (startTime_parsed a) with (startTime_parsed b) by lia.
      now apply in_map. }
    subst b. f_equal. apply IH; [exact Hrest|exact Hs1| |exact Hs2].
    exact (Permutation_cons_inv Hperm).
Qed.

Lemma sort_values_is_the_ascending_order (rows sorted_rows : list Row) :
  distinct_timestamps rows ->
  Permutation sorted_rows rows ->
  Sorted (fun a b => startTime_parsed a <= startTime_parsed b) sorted_rows ->
  sorted_rows = sort_values rows.
Proof.
  intros Hdistinct Hperm Hsorted. symmetry.
  apply ascending_order_unique.
  - unfold distinct_timestamps in *.
    apply (Permutation_NoDup (l := map startTime_parsed rows)); [|exact Hdistinct].
    apply Permutation_map, Permutation_sym, sort_values_permutation.
  - rewrite sort_values_permutation. now apply Permutation_sym.
  - apply sort_values_ascending.
  - exact Hsorted.
Qed.

Lemma example_df_distinct : distinct_timestamps (select_rows example_df "NO1" "hydro").
Proof.
  unfold distinct_timestamps. simpl.
  repeat (apply List.NoDup_cons; [simpl; intuition discriminate|]).
  apply List.NoDup_nil.
Qed.

Lemma length_ffill_from prev l : length (ffill_from prev l) = length l.
Proof.
  revert prev. induction l as [|x rest IH]; intros prev; simpl; [reflexivity|].
  destruct (is_nan x); simpl; rewrite IH; reflexivity.
Qed.

Lemma length_bfill l : length (bfill l) = length l.
Proof.
  induction l as [|x rest IH]; simpl; [reflexivity|].
  destruct (is_nan x); simpl; rewrite IH; reflexivity.
Qed.

(** Once a valid value has been seen, forward filling leaves no gap. *)
Lemma ffill_from_valid p l :
  valid p -> Forall (fun x => valid x) (ffill_from (Some p) l).
Proof.
  revert p. induction l as [|x rest IH]; intros p Hp; simpl; [constructor|].
  destruct (is_nan x) eqn:Hx.
  - constructor; [exact Hp | apply IH, Hp].
  - constructor; [exact Hx | apply IH, Hx].
Qed.

(** Backward filling does not touch a series without gaps. *)
Lemma bfill_all_valid l : Forall (fun x => valid x) l -> bfill l = l.
Proof.
  induction 1 as [|x rest Hx _ IH]; simpl; [reflexivity|].
  rewrite Hx, IH. reflexivity.
Qed.

(** A series holding at least one valid value has none missing after
    [ffill().bfill()]. *)
Lemma fill_complete l :
  Exists (fun x => valid x) l -> Forall (fun x => valid x) (bfill (ffill l)).
Proof.
  unfold ffill. induction l as [|x rest IH]; intros Hex.
  - inversion Hex.
  - simpl. destruct (is_nan x) eqn:Hx.
    + assert (Hrest : Exists (fun x => valid x) rest).
      { inversion Hex; subst; [congruence | assumption]. }
      specialize (IH Hrest). simpl. rewrite Hx.
      destruct (bfill (ffill_from None rest)) as [|y tl] eqn:Hb.
      * exfalso. apply (f_equal (@length float)) in Hb.
        rewrite length_bfill, length_ffill_from in Hb.
        destruct rest; [inversion Hrest | discriminate].
      * constructor; [|exact IH]. now inversion IH.
    + pose proof (ffill_from_valid x rest Hx) as Hall.
      change (Forall (fun x => valid x) (bfill (x :: ffill_from (Some x) rest))).
      rewrite bfill_all_valid; constructor; assumption.
Qed.

(** Filling never overwrites a value that was present. *)
Lemma ffill_from_keeps prev l (i : nat) x :
  l !! i = Some x -> valid x -> ffill_from prev l !! i = Some x.
Proof.
  revert prev i. induction l as [|y rest IH]; intros prev i Hi Hx; [discriminate|].
  destruct i as [|i]; simpl in *.
  - injection Hi as ->. rewrite Hx. reflexivity.
  - destruct (is_nan y); simpl; apply IH; assumption.
Qed.

Lemma bfill_keeps l (i : nat) x :
  l !! i = Some x -> valid x -> bfill l !! i = Some x.
Proof.
  revert i. induction l as [|y rest IH]; intros i Hi Hx; [discriminate|].
  destruct i as [|i]; simpl in *.
  - injection Hi as ->. rewrite Hx. reflexivity.
  - destruct (is_nan y); simpl; apply IH; assumption.
Qed.


Lemma internal_gaps_has_valid l : internal_gaps_only l -> Exists valid l.
Proof.
  destruct l as [|x rest]; simpl; [tauto|].
  intros [Hx _]. now constructor.
Qed.

(** C7. When the selected series (the rows matching both keys, sorted by
    timestamp) has missing values only at internal positions, the series
    after forward fill then backward fill has the same length, contains
    no missing value, and holds the original value at every position
    where one was present. *)
Theorem gap_fill_completeness (df : DataFrame) (price_area production_group : string) :
  let raw := selected_values df price_area production_group in
  let filled := bfill (ffill raw) in
  internal_gaps_only raw ->
  length filled = length raw
  /\ Forall valid filled
  /\ forall (i : nat) (x : float), raw !! i = Some x -> valid x -> filled !! i = Some x.
Proof.
  intros raw filled Hgaps. subst filled. repeat split.
  - unfold ffill. now rewrite length_bfill, length_ffill_from.
  - apply fill_complete, internal_gaps_has_valid, Hgaps.
  - intros i x Hi Hx. apply bfill_keeps; [|exact Hx].
    apply ffill_from_keeps; assumption.
Qed.

Lemma gap_fill_completeness_witness :
  internal_gaps_only (selected_values example_df "NO1" "hydro")
  /\ Forall valid (bfill (ffill (selected_values example_df "NO1" "hydro"))).
Proof.
  assert (H : internal_gaps_only (selected_values example_df "NO1" "hydro")).
  { simpl. split; reflexivity. }
  split; [exact H|].
  exact (proj1 (proj2 (gap_fill_completeness example_df "NO1" "hydro" H))).
Defined.

(** The series handed to STL and to the spectrogram is that filled series. *)
Lemma length_selected_filled df price_area production_group :
  length (bfill (ffill (selected_values df price_area production_group)))
  = length (select_rows df price_area production_group).
Proof.
  unfold ffill, selected_values.
  now rewrite length_bfill, length_ffill_from, length_map, length_sort_values.
Qed.

(** ** Failures of [stl_analysis] *)

Example STL_UNAVAILABLE_text :
  STL_UNAVAILABLE
  = "STL decomposition is unavailable because statsmodels could not be imported; please install statsmodels in your environment (e.g. pip install statsmodels)"%string.
Proof. reflexivity. Qed.

(** C8. When the statsmodels STL primitive is unavailable, [stl_analysis]
    returns no figure and the LibraryUnavailable message, word for word. *)
Theorem stl_analysis_library_unavailable (rt : Runtime) (df : DataFrame)
    (price_area production_group : string) (period seasonal : Z)
    (trend : option Z) (robust : bool) :
  _STL_AVAILABLE rt = false ->
  stl_analysis rt df price_area production_group period seasonal trend robust
  = Return
      (None,
       Some "STL decomposition is unavailable because statsmodels could not be imported; please install statsmodels in your environment (e.g. pip install statsmodels)"%string).
Proof.
  intros Hmissing. unfold stl_analysis. rewrite Hmissing. reflexivity.
Qed.

Lemma stl_analysis_library_unavailable_witness :
  stl_analysis runtime_bare example_df "NO1" "hydro" 24 7 None true
  = Return (None, Some STL_UNAVAILABLE).
Proof.
  apply (stl_analysis_library_unavailable runtime_bare example_df "NO1" "hydro" 24 7 None true).
  reflexivity.
Defined.

(** C9. The availability check comes before the filter: with statsmodels
    unavailable, a combination matching zero rows gets the
    LibraryUnavailable message and not the NoData one, and the result is
    the same for every dataset. *)
Theorem stl_unavailable_precedes_no_data (rt : Runtime) (df : DataFrame)
    (price_area production_group : string) (period seasonal : Z)
    (trend : option Z) (robust : bool) :
  _STL_AVAILABLE rt = false ->
  select_rows df price_area production_group = [] ->
  stl_analysis rt df price_area production_group period seasonal trend robust
  = Return (None, Some STL_UNAVAILABLE)
  /\ stl_analysis rt df price_area production_group period seasonal trend robust
     <> Return (None, Some NO_DATA)
  /\ forall df' : DataFrame,
       stl_analysis rt df' price_area production_group period seasonal trend robust
       = stl_analysis rt df price_area production_group period seasonal trend robust.
Proof.
  intros Hmissing _.
  assert (Hall : forall d, stl_analysis rt d price_area production_group period seasonal trend robust
                           = Return (None, Some STL_UNAVAILABLE)).
  { intros d. unfold stl_analysis. rewrite Hmissing. reflexivity. }
  repeat split.
  - apply Hall.
  - rewrite Hall. discriminate.
  - intros df'. now rewrite !Hall.
Qed.

Lemma stl_unavailable_precedes_no_data_witness :
  select_rows example_df "NO9" "solar" = []
  /\ stl_analysis runtime_bare example_df "NO9" "solar" 24 7 None true
     = Return (None, Some STL_UNAVAILABLE).
Proof.
  split; [reflexivity|].
  apply (stl_unavailable_precedes_no_data runtime_bare example_df "NO9" "solar" 24 7 None true);
    reflexivity.
Defined.

(** ** Empty selections *)

(** C6 as stated fails for [stl_analysis] in a runtime without
    statsmodels: an empty selection gets the LibraryUnavailable message. *)
Lemma empty_selection_without_statsmodels :
  select_rows example_df "nonexistent_area" "nonexistent_group" = []
  /\ stl_analysis runtime_bare example_df "nonexistent_area" "nonexistent_group" 24 7 None false
     <> Return (None, Some NO_DATA).
Proof. split; [reflexivity | discriminate]. Qed.

(** C6, amended. For a combination matching zero rows,
    [spectrogram_analysis] returns no figure and the NoData message, and
    so does [stl_analysis] when statsmodels is available; neither raises. *)
Theorem empty_selection_no_data (rt : Runtime) (df : DataFrame)
    (price_area production_group : string) (period seasonal : Z)
    (trend : option Z) (robust : bool) (window_length window_overlap : Z) :
  select_rows df price_area production_group = [] ->
  (_STL_AVAILABLE rt = true ->
   stl_analysis rt df price_area production_group period seasonal trend robust
   = Return (None, Some "No data available for selected combination"%string))
  /\ spectrogram_analysis rt df price_area production_group window_length window_overlap
     = Return (None, Some "No data available for selected combination"%string).
Proof.
  intros Hempty. split.
  - intros Havailable. unfold stl_analysis. rewrite Havailable, Hempty. reflexivity.
  - unfold spectrogram_analysis. rewrite Hempty. reflexivity.
Qed.

Lemma empty_selection_no_data_witness :
  stl_analysis runtime_without_scipy example_df "nonexistent_area" "nonexistent_group" 24 7 None false
  = Return (None, Some NO_DATA)
  /\ spectrogram_analysis runtime_without_scipy example_df "nonexistent_area" "nonexistent_group" 168 84
     = Return (None, Some NO_DATA).
Proof.
  destruct (empty_selection_no_data runtime_without_scipy example_df
              "nonexistent_area" "nonexistent_group" 24 7 None false 168 84 eq_refl)
    as [Hstl Hspec].
  split; [apply Hstl; reflexivity | exact Hspec].
Defined.

(** ** Slices and segments *)

Lemma py_slice_nonneg {A : Type} (l : list A) (a b : Z) :
  0 <= a <= b ->
  py_slice l a b = take (Z.to_nat (b - a)) (drop (Z.to_nat a) l).
Proof.
  intros Hab. unfold py_slice, len.
  destruct (Z.ltb_spec a 0) as [Ha|_]; [lia|].
  destruct (Z.ltb_spec b 0) as [Hb|_]; [lia|].
  destruct (Z_lt_le_dec a (Z.of_nat (length l))) as [Hin|Hout].
  - rewrite (Z.min_l a) by lia.
    destruct (Z_le_gt_dec b (Z.of_nat (length l))) as [Hb|Hb].
    + now rewrite (Z.min_l b) by lia.
    + rewrite (Z.min_r b) by lia.
      rewrite !take_ge; [reflexivity| |]; rewrite length_drop; lia.
  - rewrite !(drop_ge l) by lia. now rewrite !take_nil.
Qed.

Lemma segment_lookup (production : list float) (nperseg noverlap i k : Z) :
  0 <= i -> 0 <= k < nperseg ->
  segment production nperseg noverlap i !! Z.to_nat k
  = Some (default 0%float (production !! Z.to_nat (i * step nperseg noverlap + k))).
Proof.
  intros Hi Hk. unfold segment.
  assert (Hstep : 1 <= step nperseg noverlap) by (unfold step; lia).
  set (start := i * step nperseg noverlap).
  assert (Hstart : 0 <= start) by (subst start; nia).
  rewrite py_slice_nonneg by lia.
  replace (start + nperseg - start) with nperseg by lia.
  set (seg := take (Z.to_nat nperseg) (drop (Z.to_nat start) production)).
  assert (Hseg : seg !! Z.to_nat k = production !! Z.to_nat (start + k)).
  { subst seg. rewrite lookup_take_lt by lia. rewrite lookup_drop.
    f_equal. lia. }
  destruct (production !! Z.to_nat (start + k)) as [x|] eqn:Hx; simpl.
  - destruct (len seg <? nperseg); [|exact Hseg].
    unfold np_pad. rewrite lookup_app_l; [exact Hseg|].
    apply lookup_lt_is_Some. rewrite Hseg. eauto.
  - apply lookup_ge_None in Hseg.
    destruct (Z.ltb_spec (len seg) nperseg) as [Hshort|Hfull]; unfold len in *.
    + unfold np_pad. rewrite lookup_app_r by exact Hseg.
      apply lookup_replicate_2. lia.
    + lia.
Qed.

Lemma segment_length (production : list float) (nperseg noverlap i : Z) :
  0 <= i -> 0 <= nperseg ->
  len (segment production nperseg noverlap i) = nperseg.
Proof.
  intros Hi Hn. unfold segment.
  assert (Hstep : 1 <= step nperseg noverlap) by (unfold step; lia).
  set (start := i * step nperseg noverlap).
  assert (Hstart : 0 <= start) by (subst start; nia).
  rewrite py_slice_nonneg by lia.
  set (seg := take _ _).
  assert (Hle : len seg <= nperseg).
  { subst seg. unfold len. rewrite length_take. lia. }
  destruct (Z.ltb_spec (len seg) nperseg) as [Hshort|Hfull]; [|lia].
  unfold np_pad, len in *. rewrite length_app, length_replicate. lia.
Qed.

(** ** The segment count *)

Lemma step_positive nperseg noverlap : 1 <= step nperseg noverlap.
Proof. unfold step. lia. Qed.

Lemma step_within_precondition nperseg noverlap :
  0 <= noverlap < nperseg -> step nperseg noverlap = nperseg - noverlap.
Proof. unfold step. lia. Qed.

(** Rounding up a quotient of integers, as the floor division the code uses. *)
Lemma ceiling_as_floor_division (a s : Z) :
  0 < s -> Qceiling (inject_Z a / inject_Z s) = (a + s - 1) / s.
Proof.
  intros Hs. unfold Qceiling.
  rewrite (Qfloor_comp (- (inject_Z a / inject_Z s)) (inject_Z (- a) / inject_Z s)).
  - rewrite <- Zdiv_Qdiv.
    apply (Z.div_unique_pos _ _ _ (s - 1 - (- a) mod s)).
    + pose proof (Z.mod_pos_bound (- a) s Hs). lia.
    + pose proof (Z.div_mod (- a) s ltac:(lia)). lia.
  - rewrite inject_Z_opp. unfold Qdiv. ring.
Qed.

Lemma segments_zero_iff (n nperseg noverlap : Z) :
  segments n nperseg noverlap = 0 <-> n <= noverlap.
Proof.
  unfold segments. pose proof (step_positive nperseg noverlap) as Hs.
  set (s := step nperseg noverlap) in *.
  split; intros H.
  - destruct (Z_le_gt_dec n noverlap) as [|Hgt]; [assumption|exfalso].
    assert (1 <= (n - noverlap + s - 1) / s); [|lia].
    apply Z.div_le_lower_bound; lia.
  - assert ((n - noverlap + s - 1) / s <= 0); [|lia].
    apply Z.lt_succ_r, Z.div_lt_upper_bound; lia.
Qed.

Lemma segments_bounds (n nperseg noverlap : Z) :
  0 <= segments n nperseg noverlap <= Z.max 0 (n - noverlap).
Proof.
  unfold segments. pose proof (step_positive nperseg noverlap) as Hs.
  set (s := step nperseg noverlap) in *.
  split; [lia|].
  apply Z.max_lub; [lia|].
  destruct (Z_le_gt_dec n noverlap) as [Hle|Hgt].
  - assert ((n - noverlap + s - 1) / s < 1); [|lia].
    apply Z.div_lt_upper_bound; lia.
  - assert ((n - noverlap + s - 1) / s < n - noverlap + 1); [|lia].
    apply Z.div_lt_upper_bound; nia.
Qed.

(** Every segment but the last lies inside the series. *)
Lemma inner_segment_is_full (n nperseg noverlap i : Z) :
  0 <= noverlap < nperseg -> 0 <= i -> i + 1 < segments n nperseg noverlap ->
  i * step nperseg noverlap + nperseg <= n.
Proof.
  intros Hpre Hi Hlt. unfold segments in Hlt.
  rewrite step_within_precondition in * by exact Hpre.
  set (s := nperseg - noverlap) in *.
  assert (Hs : 0 < s) by (subst s; lia).
  pose proof (Z.mul_div_le (n - noverlap + s - 1) s Hs).
  nia.
Qed.

(** ** The segment loop *)

(** A loop over [range(n)] runs its body once per element of the range. *)
Lemma for_range_counts {S : Type} (body : Z -> S -> S) (n : Z) (s : S) :
  for_range n (fun i st => (body i (fst st), snd st + 1)) (s, 0)
  = (for_range n body s, Z.max 0 n).
Proof.
  unfold for_range.
  assert (Hgen : forall (l : list Z) (acc : S) (c : Z),
             fold_left (fun st i => (body i (fst st), snd st + 1)) l (acc, c)
             = (fold_left (fun a i => body i a) l acc, c + len l)).
  { induction l as [|i l IH]; intros acc c; simpl.
    - f_equal. unfold len. simpl. lia.
    - rewrite IH. f_equal. unfold len. simpl length. lia. }
  rewrite Hgen. f_equal. unfold len, range. rewrite length_seqZ. lia.
Qed.

(** Assigning column [i] at iteration [i] fills the first [m] columns. *)
Lemma assign_columns_prefix {A : Type} (f : Z -> A) (m : nat) (S0 : list A) :
  let R := fold_left (fun acc i => <[Z.to_nat i := f i]> acc) (seqZ 0 (Z.of_nat m)) S0 in
  length R = length S0
  /\ forall j : nat,
       R !! j = if decide (j < m /\ j < length S0)%nat then Some (f (Z.of_nat j)) else S0 !! j.
Proof.
  induction m as [|m [IHlen IHget]].
  - simpl. split; reflexivity.
  - rewrite seqZ_S, fold_left_app. simpl.
    replace (Z.to_nat (0 + Z.of_nat m)) with m by lia.
    split; [rewrite length_insert; exact IHlen|].
    intros j. rewrite list_lookup_insert, IHlen, IHget.
    repeat case_decide; try reflexivity; try (exfalso; lia).
    f_equal. f_equal. lia.
Qed.

(** The loop leaves in [Sxx] the column of every segment, whatever the
    array held before. *)
Lemma for_range_assigns_all {A : Type} (f : Z -> A) (n : Z) (S0 : list A) :
  length S0 = Z.to_nat n ->
  for_range n (fun i acc => <[Z.to_nat i := f i]> acc) S0 = map f (range n).
Proof.
  intros Hlen. unfold for_range, range.
  destruct (Z_le_gt_dec n 0) as [Hn|Hn].
  - rewrite seqZ_nil by exact Hn. simpl.
    destruct S0; [reflexivity|simpl in Hlen; lia].
  - rewrite <- (Z2Nat.id n) by lia.
    destruct (assign_columns_prefix f (Z.to_nat n) S0) as [Hl Hget].
    apply list_eq. intros j. rewrite Hget. clear Hget.
    change (map f ?l) with (f <$> l). rewrite list_lookup_fmap.
    case_decide as Hj.
    + rewrite lookup_seqZ_lt by lia. simpl. reflexivity.
    + rewrite (proj2 (lookup_ge_None S0 j)) by lia.
      rewrite lookup_seqZ_ge by lia. reflexivity.
Qed.

Lemma length_range (n : Z) : len (range n) = Z.max 0 n.
Proof. unfold len, range. rewrite length_seqZ. lia. Qed.

(** What the NumPy branch returns once its two checks have passed. *)
Lemma fallback_stft_computes (npy : NumPy) (production : list float)
    (window_length window_overlap : Z) :
  1 <= len production -> 0 < window_length ->
  window_overlap < len production ->
  let segs := segments (len production) window_length window_overlap in
  let window := hanning npy window_length in
  let win_norm := np_sum npy (map (fun w => w * w)%float window) in
  fallback_stft npy production window_length window_overlap
  = inr (rfftfreq npy window_length,
         map (fun i => astype_float npy (i * step window_length window_overlap)) (range segs),
         map (fun i => power_column npy window win_norm
                         (segment production window_length window_overlap i))
             (range segs)).
Proof.
  intros Hn HL Hov segs window win_norm. unfold fallback_stft.
  destruct (Z.ltb_spec (len production) 1) as [?|_]; [lia|].
  destruct (Z.leb_spec window_length 0) as [?|_]; [lia|]. simpl.
  fold segs.
  assert (Hsegs : 0 < segs).
  { pose proof (segments_bounds (len production) window_length window_overlap) as Hb.
    pose proof (segments_zero_iff (len production) window_length window_overlap) as Hz.
    fold segs in Hb, Hz. destruct (Z.eq_dec segs 0) as [E|E]; [apply Hz in E|]; lia. }
  destruct (Z.leb_spec segs 0) as [?|_]; [lia|].
  fold window. fold win_norm.
  repeat f_equal.
  unfold loop_body.
  apply (for_range_assigns_all
           (fun i => power_column npy window win_norm
                       (segment production window_length window_overlap i))).
  unfold np_empty, range. now rewrite length_map, length_seqZ.
Qed.

Example segments_of_ten_samples :
  map (segment ten_samples 4 2) (range (segments 10 4 2))
  = [[1; 2; 3; 4]; [3; 4; 5; 6]; [5; 6; 7; 8]; [7; 8; 9; 10]]%float.
Proof. reflexivity. Qed.

Example short_final_segment_is_padded :
  map (segment (take 9 ten_samples) 4 2) (range (segments 9 4 2))
  = [[1; 2; 3; 4]; [3; 4; 5; 6]; [5; 6; 7; 8]; [7; 8; 9; 0]]%float.
Proof. reflexivity. Qed.

(** C4. For a series of length [N], a window [L] and an overlap [V] with
    [0 <= V < L], the segment count is [max(0, ceil((N - V) / (L - V)))],
    which is 4 for [N = 10, L = 4, V = 2]. Segment [i] has exactly [L]
    samples: sample [k] is [series[i*step + k]] where the series reaches
    that far and zero otherwise, and only the final segment can run past
    the end of the series. The NumPy branch returns one time bin and one
    power column per segment, column [i] computed from segment [i]; it
    returns an error only when the count is zero. *)
Theorem segment_count_formula (npy : NumPy) (production : list float) (L V : Z) :
  0 <= V < L ->
  let N := len production in
  let segs := segments N L V in
  segs = Z.max 0 (Qceiling (inject_Z (N - V) / inject_Z (L - V)))
  /\ segments 10 4 2 = 4
  /\ (forall i : Z, 0 <= i < segs ->
        len (segment production L V i) = L
        /\ (forall k : Z, 0 <= k < L ->
              segment production L V i !! Z.to_nat k
              = Some (default 0%float (production !! Z.to_nat (i * (L - V) + k))))
        /\ (i + 1 < segs -> i * (L - V) + L <= N))
  /\ match fallback_stft npy production L V with
     | inr (_, times, Sxx) =>
         len times = segs /\ len Sxx = segs
         /\ forall i : Z, 0 <= i < segs ->
              Sxx !! Z.to_nat i
              = Some (power_column npy (hanning npy L)
                        (np_sum npy (map (fun w => w * w)%float (hanning npy L)))
                        (segment production L V i))
     | inl _ => segs = 0
     end.
Proof.
  intros Hpre N segs.
  pose proof (step_within_precondition L V Hpre) as Hstep.
  split; [|split; [reflexivity|split]].
  - subst segs. unfold segments. rewrite Hstep.
    now rewrite ceiling_as_floor_division by lia.
  - intros i Hi. split; [|split].
    + apply segment_length; lia.
    + intros k Hk. rewrite <- Hstep. apply segment_lookup; lia.
    + intros Hinner. rewrite <- Hstep. apply inner_segment_is_full; tauto.
  - destruct (Z_le_gt_dec N V) as [Hshort|Hlong].
    + assert (Hzero : segs = 0) by (apply segments_zero_iff; exact Hshort).
      unfold fallback_stft. fold N. fold segs. rewrite Hzero.
      destruct (_ || _); exact eq_refl.
    + rewrite fallback_stft_computes by (fold N; lia).
      fold N. fold segs.
      pose proof (segments_bounds N L V) as Hb. fold segs in Hb.
      split; [|split].
      * unfold len. rewrite length_map. fold (len (range segs)).
        rewrite length_range. lia.
      * unfold len. rewrite length_map. fold (len (range segs)).
        rewrite length_range. lia.
      * intros i Hi. change (map ?f ?l) with (f <$> l) at 1.
        rewrite list_lookup_fmap. unfold range.
        rewrite lookup_seqZ_lt by lia. simpl. do 3 f_equal. lia.
Qed.

Lemma segment_count_formula_witness :
  0 <= 2 < 4
  /\ segments (len ten_samples) 4 2
     = Z.max 0 (Qceiling (inject_Z (len ten_samples - 2) / inject_Z (4 - 2))).
Proof.
  assert (Hpre : 0 <= 2 < 4) by lia.
  split; [exact Hpre|].
  destruct (segment_count_formula example_numpy ten_samples 4 2 Hpre) as [Hcount _].
  exact Hcount.
Defined.

(** ** Degenerate spectrogram settings *)

(** Without scipy, a non-empty selection goes through the NumPy branch. *)
Lemma spectrogram_analysis_fallback (rt : Runtime) (df : DataFrame)
    (price_area production_group : string) (window_length window_overlap : Z) :
  _SCIPY_AVAILABLE rt = false \/ signal rt = None ->
  select_rows df price_area production_group <> [] ->
  spectrogram_analysis rt df price_area production_group window_length window_overlap
  = match fallback_stft (np rt) (bfill (ffill (selected_values df price_area production_group)))
            window_length window_overlap with
    | inl error => Return (None, Some error)
    | inr (frequencies, times, Sxx) =>
        Return
          (Some {| spec_title :=
                     "Spectrogram: " ++ production_group ++ " Production in " ++ price_area
                     ++ newline ++ "Window: " ++ str window_length
                     ++ "h, Overlap: " ++ str window_overlap ++ "h";
                   spec_times := times;
                   spec_frequencies := frequencies;
                   spec_Sxx_db := to_db (np rt) Sxx |},
           None)
    end.
Proof.
  intros Hfallback Hrows. unfold spectrogram_analysis, selected_values.
  destruct (select_rows df price_area production_group) as [|r rows] eqn:Hsel;
    [congruence|].
  cbn [length Nat.eqb].
  destruct Hfallback as [-> | ->]; [reflexivity|].
  destruct (_SCIPY_AVAILABLE rt); reflexivity.
Qed.

(** C5 as stated fails: a series of five samples is shorter than
    [window_length - window_overlap = 10], and the NumPy branch still
    returns a figure, made of one zero-padded segment. *)
Lemma short_series_still_gets_a_spectrogram :
  len (bfill (ffill (selected_values example_df "NO1" "hydro"))) < 10 - 0
  /\ spectrogram_analysis runtime_without_scipy example_df "NO1" "hydro" 10 0
     <> Return (None, Some NOT_ENOUGH_DATA)
  /\ exists fig,
       spectrogram_analysis runtime_without_scipy example_df "NO1" "hydro" 10 0
       = Return (Some fig, None).
Proof.
  split; [reflexivity|]. split.
  - vm_compute. discriminate.
  - eexists. vm_compute. reflexivity.
Qed.

(** C5, amended. In the NumPy branch, for a non-empty selection: a
    [window_length] of zero or less gives no figure and the message
    "Invalid window settings for spectrogram"; with a positive
    [window_length], a series no longer than [window_overlap] gives no
    figure and the message "Not enough data for selected window/overlap
    settings", and any longer series gives a figure. *)
Theorem spectrogram_degenerate_settings (rt : Runtime) (df : DataFrame)
    (price_area production_group : string) (window_length window_overlap : Z) :
  _SCIPY_AVAILABLE rt = false \/ signal rt = None ->
  select_rows df price_area production_group <> [] ->
  let production := bfill (ffill (selected_values df price_area production_group)) in
  let result :=
    spectrogram_analysis rt df price_area production_group window_length window_overlap in
  (window_length <= 0 ->
   result = Return (None, Some "Invalid window settings for spectrogram"%string))
  /\ (0 < window_length -> len production <= window_overlap ->
      result = Return (None, Some "Not enough data for selected window/overlap settings"%string))
  /\ (0 < window_length -> window_overlap < len production ->
      exists fig, result = Return (Some fig, None)).
Proof.
  intros Hfallback Hrows production result. subst result.
  rewrite spectrogram_analysis_fallback by assumption. fold production.
  assert (Hn : 1 <= len production).
  { subst production. unfold len. rewrite length_selected_filled.
    destruct (select_rows df price_area production_group); [congruence|simpl; lia]. }
  split; [|split].
  - intros HL. unfold fallback_stft.
    destruct (Z.leb_spec window_length 0) as [_|?]; [|lia].
    rewrite orb_true_r. reflexivity.
  - intros HL Hshort. unfold fallback_stft.
    destruct (Z.ltb_spec (len production) 1) as [?|_]; [lia|].
    destruct (Z.leb_spec window_length 0) as [?|_]; [lia|]. simpl.
    rewrite (proj2 (segments_zero_iff (len production) window_length window_overlap) Hshort).
    reflexivity.
  - intros HL Hlong. rewrite fallback_stft_computes by assumption.
    eexists. reflexivity.
Qed.

Lemma spectrogram_degenerate_settings_witness :
  spectrogram_analysis runtime_without_scipy example_df "NO1" "hydro" 0 0
  = Return (None, Some INVALID_WINDOW)
  /\ spectrogram_analysis runtime_without_scipy example_df "NO1" "hydro" 24 12
     = Return (None, Some NOT_ENOUGH_DATA).
Proof.
  assert (Hfallback : _SCIPY_AVAILABLE runtime_without_scipy = false
                      \/ signal runtime_without_scipy = None) by (left; reflexivity).
  assert (Hrows : select_rows example_df "NO1" "hydro" <> []) by discriminate.
  split.
  - destruct (spectrogram_degenerate_settings runtime_without_scipy example_df
                "NO1" "hydro" 0 0 Hfallback Hrows) as [Hinvalid _].
    apply Hinvalid. lia.
  - destruct (spectrogram_degenerate_settings runtime_without_scipy example_df
                "NO1" "hydro" 24 12 Hfallback Hrows) as (_ & Hshort & _).
    apply Hshort; [lia | vm_compute; discriminate].
Defined.

(** ** Termination of the segment loop *)

(** C10. In the NumPy branch the step is at least 1 whatever the window
    and overlap, and it is exactly 1 when the overlap reaches the window
    length; the segment count is then between 0 and [max(0, n - noverlap)],
    and the segment loop runs its body exactly [segments] times. *)
Theorem segment_loop_terminates (npy : NumPy) (production : list float)
    (nperseg noverlap : Z) (window : list float) (win_norm : float)
    (Sxx : list (list float)) :
  let n := len production in
  let segs := segments n nperseg noverlap in
  step nperseg noverlap = Z.max 1 (nperseg - noverlap)
  /\ 1 <= step nperseg noverlap
  /\ (nperseg <= noverlap ->
      step nperseg noverlap = 1 /\ segs = Z.max 0 (n - noverlap))
  /\ 0 <= segs <= Z.max 0 (n - noverlap)
  /\ for_range segs
       (fun i st =>
          (loop_body npy production nperseg noverlap window win_norm i (fst st), snd st + 1))
       (Sxx, 0)
     = (for_range segs (loop_body npy production nperseg noverlap window win_norm) Sxx, segs).
Proof.
  intros n segs.
  pose proof (segments_bounds n nperseg noverlap) as Hb. fold segs in Hb.
  split; [reflexivity|]. split; [apply step_positive|]. split; [|split].
  - intros Hover.
    assert (Hstep : step nperseg noverlap = 1) by (unfold step; lia).
    split; [exact Hstep|].
    subst segs. unfold segments. rewrite Hstep, Z.div_1_r. f_equal. lia.
  - exact Hb.
  - rewrite for_range_counts. f_equal. lia.
Qed.

Example loop_with_overlap_beyond_window :
  step 4 7 = 1 /\ segments 10 4 7 = 3
  /\ len (range (segments 10 4 7)) = 3.
Proof. repeat split. Qed.

(** ** The seasonal window *)

(** C2 as stated fails: [stl_analysis] hands [seasonal] to the STL
    primitive as it is, so an even value and its successor are two
    different calls. *)
Lemma stl_analysis_keeps_even_seasonal :
  Z.even 4 = true
  /\ stl_analysis runtime_without_scipy example_df "NO1" "hydro" 24 4 None true
     <> stl_analysis runtime_without_scipy example_df "NO1" "hydro" 24 (4 + 1) None true.
Proof. split; [reflexivity|]. vm_compute. discriminate. Qed.

(** C2, amended. The increment is made by the page script, before the
    call: for every even [w], running the STL analysis from the page with
    the seasonal value [w] is the call of [stl_analysis] with
    [seasonal = w + 1], and shows what a run with [w + 1] shows. *)
Theorem page_increments_even_seasonal (rt : Runtime) (df : DataFrame)
    (stl_price_area stl_prod_group : string) (stl_period w : Z) (stl_robust : bool) :
  Z.even w = true ->
  run_stl_button rt df stl_price_area stl_prod_group stl_period w stl_robust
  = show_stl (stl_analysis rt df stl_price_area stl_prod_group stl_period (w + 1) None stl_robust)
  /\ run_stl_button rt df stl_price_area stl_prod_group stl_period w stl_robust
     = run_stl_button rt df stl_price_area stl_prod_group stl_period (w + 1) stl_robust.
Proof.
  intros Heven. apply Z.even_spec in Heven. destruct Heven as [h ->].
  unfold run_stl_button.
  replace ((2 * h) mod 2) with 0 by (symmetry; apply Z.mod_divide; [lia | exists h; lia]).
  replace ((2 * h + 1) mod 2) with 1.
  - split; reflexivity.
  - apply (Z.mod_unique_pos _ _ h); lia.
Qed.

Lemma page_increments_even_seasonal_witness :
  run_stl_button runtime_without_scipy example_df "NO1" "hydro" 24 4 true
  = run_stl_button runtime_without_scipy example_df "NO1" "hydro" 24 5 true.
Proof.
  apply (page_increments_even_seasonal runtime_without_scipy example_df
           "NO1" "hydro" 24 4 true).
  reflexivity.
Defined.

(** ** The STL figure *)

Lemma plot_returns (label : string) (x : list Z) (y : list float) (p : Panel) :
  plot label x y = Return p -> xdata p = x /\ length (ydata p) = length x.
Proof.
  unfold plot. destruct (Nat.eqb_spec (length x) (length y)) as [Hlen|_]; [|discriminate].
  intros [= <-]. simpl. split; congruence.
Qed.

(** When [stl_analysis] returns a figure it returns no message, and the
    figure has four panels, each drawn against the timestamps of the
    selected series and holding one value per timestamp. *)
Lemma stl_figure_panels_aligned (rt : Runtime) (df : DataFrame)
    (price_area production_group : string) (period seasonal : Z)
    (trend : option Z) (robust : bool) (fig : StlFigure) (error : option string) :
  stl_analysis rt df price_area production_group period seasonal trend robust
  = Return (Some fig, error) ->
  error = None
  /\ length (axes fig) = 4%nat
  /\ Forall
       (fun p =>
          xdata p = map startTime_parsed (sort_values (select_rows df price_area production_group))
          /\ length (ydata p) = length (xdata p))
       (axes fig).
Proof.
  unfold stl_analysis.
  destruct (_STL_AVAILABLE rt); simpl; [|discriminate].
  destruct (length (select_rows df price_area production_group) =? 0)%nat; [discriminate|].
  destruct (STL rt) as [stl|]; [|discriminate].
  destruct (stl _ period seasonal trend robust) as [result|e]; simpl; [|discriminate].
  destruct (plot "Original" _ _) as [ax0|e] eqn:H0; simpl; [|discriminate].
  destruct (plot "Trend" _ _) as [ax1|e] eqn:H1; simpl; [|discriminate].
  destruct (plot "Seasonal" _ _) as [ax2|e] eqn:H2; simpl; [|discriminate].
  destruct (plot "Residual" _ _) as [ax3|e] eqn:H3; simpl; [|discriminate].
  intros [= <- <-]. simpl.
  apply plot_returns in H0, H1, H2, H3. simpl in *.
  destruct H0 as [E0 L0], H1 as [E1 L1], H2 as [E2 L2], H3 as [E3 L3].
  split; [reflexivity|]. split; [reflexivity|].
  repeat constructor; congruence.
Qed.

(** The three ways through the NumPy branch for a non-empty series. *)
Lemma spectrogram_degenerate_cases (npy : NumPy) (production : list float)
    (window_length window_overlap : Z) :
  1 <= len production ->
  (window_length <= 0
   /\ fallback_stft npy production window_length window_overlap = inl INVALID_WINDOW)
  \/ (0 < window_length /\ len production <= window_overlap
      /\ fallback_stft npy production window_length window_overlap = inl NOT_ENOUGH_DATA)
  \/ (0 < window_length /\ window_overlap < len production
      /\ exists s, fallback_stft npy production window_length window_overlap = inr s).
Proof.
  intros Hn.
  destruct (Z_le_gt_dec window_length 0) as [HL|HL].
  - left. split; [exact HL|]. unfold fallback_stft.
    destruct (Z.leb_spec window_length 0) as [_|?]; [|lia].
    now rewrite orb_true_r.
  - right. destruct (Z_le_gt_dec (len production) window_overlap) as [Hshort|Hlong].
    + left. repeat split; [lia|exact Hshort|]. unfold fallback_stft.
      destruct (Z.ltb_spec (len production) 1) as [?|_]; [lia|].
      destruct (Z.leb_spec window_length 0) as [?|_]; [lia|]. simpl.
      now rewrite (proj2 (segments_zero_iff (len production) window_length window_overlap) Hshort).
    + right. repeat split; [lia|lia|].
      rewrite fallback_stft_computes by lia. eexists. reflexivity.
Qed.

(** ** What the two analyses can return *)

(** X1. [stl_analysis] returns a figure or a message, never both and never
    neither: the LibraryUnavailable message exactly when statsmodels is
    missing, the NoData message when it is present and the selection is
    empty, and a figure only for a non-empty selection. *)
Theorem stl_analysis_figure_or_message (rt : Runtime) (df : DataFrame)
    (price_area production_group : string) (period seasonal : Z)
    (trend : option Z) (robust : bool)
    (fig : option StlFigure) (error : option string) :
  stl_analysis rt df price_area production_group period seasonal trend robust
  = Return (fig, error) ->
  (fig = None /\ error = Some STL_UNAVAILABLE /\ _STL_AVAILABLE rt = false)
  \/ (fig = None /\ error = Some NO_DATA /\ _STL_AVAILABLE rt = true
      /\ select_rows df price_area production_group = [])
  \/ (exists f, fig = Some f /\ error = None /\ _STL_AVAILABLE rt = true
      /\ select_rows df price_area production_group <> []).
Proof.
  unfold stl_analysis.
  destruct (_STL_AVAILABLE rt); simpl.
  - destruct (select_rows df price_area production_group) as [|r rows] eqn:Hsel; simpl.
    + intros [= <- <-]. right; left. repeat split.
    + destruct (STL rt) as [stl|]; [|discriminate].
      destruct (stl _ period seasonal trend robust) as [result|e]; simpl; [|discriminate].
      repeat (match goal with
              | |- context [plot ?l ?x ?y] => destruct (plot l x y); simpl; [|discriminate]
              end).
      intros [= <- <-]. right; right. eexists. repeat split. discriminate.
  - intros [= <- <-]. left. repeat split.
Qed.

Lemma stl_analysis_figure_or_message_witness :
  exists f,
    stl_analysis runtime_without_scipy example_df "NO1" "hydro" 24 7 None true
    = Return (Some f, None).
Proof.
  destruct (stl_analysis runtime_without_scipy example_df "NO1" "hydro" 24 7 None true)
    as [[fig error]|e] eqn:Hrun; [|vm_compute in Hrun; discriminate].
  destruct (stl_analysis_figure_or_message _ _ _ _ _ _ _ _ _ _ Hrun)
    as [(_ & _ & Hno) | [(_ & _ & _ & Hno) | (f & -> & -> & _)]].
  - discriminate Hno.
  - discriminate Hno.
  - exists f. reflexivity.
Defined.

(** X2. [spectrogram_analysis] returns a figure or a message, never both and
    never neither. The NoData message means an empty selection; the two
    window messages come only from the NumPy branch, "Invalid window" for
    a [window_length] of zero or less and "Not enough data" for a series
    no longer than [window_overlap]. *)
Theorem spectrogram_analysis_figure_or_message (rt : Runtime) (df : DataFrame)
    (price_area production_group : string) (window_length window_overlap : Z)
    (fig : option SpectrogramFigure) (error : option string) :
  spectrogram_analysis rt df price_area production_group window_length window_overlap
  = Return (fig, error) ->
  let n := len (select_rows df price_area production_group) in
  let fallback := _SCIPY_AVAILABLE rt = false \/ signal rt = None in
  (fig = None /\ error = Some NO_DATA /\ n = 0)
  \/ (fig = None /\ error = Some INVALID_WINDOW /\ 0 < n /\ fallback /\ window_length <= 0)
  \/ (fig = None /\ error = Some NOT_ENOUGH_DATA /\ 0 < n /\ fallback
      /\ 0 < window_length /\ n <= window_overlap)
  \/ (exists f, fig = Some f /\ error = None /\ 0 < n).
Proof.
  intros Hrun n fallback.
  destruct (select_rows df price_area production_group) as [|r rows] eqn:Hsel.
  - unfold spectrogram_analysis in Hrun. rewrite Hsel in Hrun.
    injection Hrun as <- <-. left. repeat split.
  - assert (Hrows : select_rows df price_area production_group <> []) by congruence.
    assert (Hn : 0 < n) by (subst n; unfold len; simpl; lia).
    assert (Hlen : len (bfill (ffill (selected_values df price_area production_group))) = n).
    { unfold len. rewrite length_selected_filled, Hsel. reflexivity. }
    assert (Hway : (exists sg, _SCIPY_AVAILABLE rt = true /\ signal rt = Some sg) \/ fallback).
    { subst fallback. destruct (_SCIPY_AVAILABLE rt); [|now right; left].
      destruct (signal rt) as [sg|]; [left; eauto | now right; right]. }
    destruct Hway as [(sg & Hflag & Hsig) | Hfb].
    + unfold spectrogram_analysis in Hrun. rewrite Hsel, Hflag, Hsig in Hrun.
      cbn [length Nat.eqb] in Hrun.
      destruct (sg _ _ _ window_length window_overlap) as [[[f t] S]|e];
        simpl in Hrun; [|discriminate].
      injection Hrun as <- <-. do 3 right. eexists. repeat split; try exact Hn.
    + rewrite spectrogram_analysis_fallback in Hrun by assumption.
      destruct (spectrogram_degenerate_cases (np rt)
                  (bfill (ffill (selected_values df price_area production_group)))
                  window_length window_overlap ltac:(lia))
        as [(HL & Hres) | [(HL & Hshort & Hres) | (HL & Hlong & s & Hres)]];
        rewrite Hres in Hrun.
      * injection Hrun as <- <-. right; left. repeat split; try (assumption || lia).
      * injection Hrun as <- <-. right; right; left.
        repeat split; try (assumption || lia).
      * destruct s as [[f t] S]. injection Hrun as <- <-.
        do 3 right. eexists. repeat split; try exact Hn.
Qed.

Lemma spectrogram_analysis_figure_or_message_witness :
  exists f,
    spectrogram_analysis runtime_without_scipy example_df "NO1" "hydro" 4 2
    = Return (Some f, None).
Proof.
  destruct (spectrogram_analysis runtime_without_scipy example_df "NO1" "hydro" 4 2)
    as [[fig error]|e] eqn:Hrun; [|vm_compute in Hrun; discriminate].
  destruct (spectrogram_analysis_figure_or_message _ _ _ _ _ _ _ _ Hrun)
    as [(_ & _ & Hno) | [(_ & _ & _ & _ & Hno) | [(_ & _ & _ & _ & _ & Hno) | (f & -> & -> & _)]]].
  - vm_compute in Hno. discriminate Hno.
  - vm_compute in Hno. exfalso. apply Hno. reflexivity.
  - vm_compute in Hno. exfalso. apply Hno. reflexivity.
  - exists f. reflexivity.
Defined.

(** ** The STL figure, from call to panels *)

(** X3. With statsmodels available, a non-empty selection of rows with
    distinct timestamps and an STL fit whose
    three components have one value per selected row, [stl_analysis]
    returns the figure titled after the selection, with the filled series,
    the trend, the seasonal part and the residual in this order, each drawn
    against the sorted timestamps. *)
Theorem stl_analysis_plots_the_fit (rt : Runtime) (df : DataFrame)
    (price_area production_group : string) (period seasonal : Z)
    (trend : option Z) (robust : bool) (stl : STL_type) (result : DecomposeResult.t) :
  let rows := sort_values (select_rows df price_area production_group) in
  let ts := {| index := map startTime_parsed rows;
               values := bfill (ffill (map quantityKwh rows)) |} in
  _STL_AVAILABLE rt = true ->
  STL rt = Some stl ->
  select_rows df price_area production_group <> [] ->
  distinct_timestamps (select_rows df price_area production_group) ->
  stl ts period seasonal trend robust = Return result ->
  length (DecomposeResult.trend result) = length rows ->
  length (DecomposeResult.seasonal result) = length rows ->
  length (DecomposeResult.resid result) = length rows ->
  stl_analysis rt df price_area production_group period seasonal trend robust
  = Return
      (Some {| stl_title := "STL Decomposition: " ++ production_group ++ " in " ++ price_area;
               axes := [ {| ylabel := "Original"; xdata := index ts; ydata := values ts |};
                         {| ylabel := "Trend"; xdata := index ts;
                            ydata := DecomposeResult.trend result |};
                         {| ylabel := "Seasonal"; xdata := index ts;
                            ydata := DecomposeResult.seasonal result |};
                         {| ylabel := "Residual"; xdata := index ts;
                            ydata := DecomposeResult.resid result |} ] |},
       None).
Proof.
  intros rows ts Havailable Hstl Hrows _ Hfit Htrend Hseasonal Hresid.
  unfold stl_analysis. rewrite Havailable, Hstl. simpl.
  destruct (select_rows df price_area production_group) as [|r others] eqn:Hsel;
    [congruence|].
  cbn [length Nat.eqb]. fold rows. fold ts. rewrite Hfit. simpl.
  assert (Hplot : forall label y, length y = length rows ->
            plot label (map startTime_parsed rows) y
            = Return {| ylabel := label; xdata := map startTime_parsed rows; ydata := y |}).
  { intros label y Hy. unfold plot. rewrite length_map, Hy, Nat.eqb_refl. reflexivity. }
  rewrite (Hplot "Original"%string)
    by (unfold ffill; now rewrite length_bfill, length_ffill_from, length_map).
  simpl. rewrite (Hplot "Trend"%string) by exact Htrend.
  simpl. rewrite (Hplot "Seasonal"%string) by exact Hseasonal.
  simpl. rewrite (Hplot "Residual"%string) by exact Hresid.
  reflexivity.
Qed.

Lemma stl_analysis_plots_the_fit_witness :
  exists fig,
    stl_analysis runtime_without_scipy example_df "NO1" "hydro" 24 7 None true
    = Return (Some fig, None)
    /\ map ydata (axes fig)
       = [[10; 20; 20; 40; 50]; [10; 20; 20; 40; 50]; [0; 0; 0; 0; 0]; [0; 0; 0; 0; 0]]%float.
Proof.
  eexists. split.
  - apply (stl_analysis_plots_the_fit runtime_without_scipy example_df "NO1" "hydro"
             24 7 None true example_STL
             {| DecomposeResult.trend := [10; 20; 20; 40; 50]%float;
                DecomposeResult.seasonal := [0; 0; 0; 0; 0]%float;
                DecomposeResult.resid := [0; 0; 0; 0; 0]%float |});
      solve [reflexivity | discriminate | exact example_df_distinct].
  - reflexivity.
Defined.

Lemma sorted_timestamps (rows : list Row) :
  Sorted (fun a b => startTime_parsed a <= startTime_parsed b) rows ->
  Sorted Z.le (map startTime_parsed rows).
Proof.
  induction 1 as [|x rest Hrest IH Hhd]; simpl; constructor; [exact IH|].
  destruct Hhd; simpl; constructor; assumption.
Qed.

(** X4. For selected rows with distinct timestamps, a figure returned by
    [stl_analysis] has a time axis in ascending
    order, holding the timestamps of exactly the selected rows; its first
    panel is the selected series after filling, and every panel has one
    value per timestamp. *)
Theorem stl_figure_time_axis (rt : Runtime) (df : DataFrame)
    (price_area production_group : string) (period seasonal : Z)
    (trend : option Z) (robust : bool) (fig : StlFigure) (error : option string) :
  distinct_timestamps (select_rows df price_area production_group) ->
  stl_analysis rt df price_area production_group period seasonal trend robust
  = Return (Some fig, error) ->
  exists (time_axis : list Z) (others : list Panel),
    Sorted Z.le time_axis
    /\ Permutation time_axis
         (map startTime_parsed (select_rows df price_area production_group))
    /\ axes fig
       = {| ylabel := "Original"; xdata := time_axis;
            ydata := bfill (ffill (selected_values df price_area production_group)) |}
         :: others
    /\ Forall (fun p => xdata p = time_axis /\ length (ydata p) = length time_axis)
         (axes fig).
Proof.
  intros _ Hrun.
  exists (map startTime_parsed (sort_values (select_rows df price_area production_group))).
  pose proof (stl_figure_panels_aligned _ _ _ _ _ _ _ _ _ _ Hrun) as (_ & _ & Haligned).
  revert Hrun. unfold stl_analysis.
  destruct (_STL_AVAILABLE rt); simpl; [|discriminate].
  destruct (length (select_rows df price_area production_group) =? 0)%nat; [discriminate|].
  destruct (STL rt) as [stl|]; [|discriminate].
  destruct (stl _ period seasonal trend robust) as [result|e]; simpl; [|discriminate].
  unfold plot at 1.
  destruct (_ =? _)%nat; simpl; [|discriminate].
  repeat (match goal with
          | |- context [plot ?l ?x ?y] => destruct (plot l x y); simpl; [|discriminate]
          end).
  intros [= <- <-]. eexists. split; [|split; [|split]].
  - apply sorted_timestamps, sort_values_ascending.
  - apply Permutation_map, sort_values_permutation.
  - reflexivity.
  - eapply List.Forall_impl; [|exact Haligned].
    intros p [Hx Hy]. split; [exact Hx|]. now rewrite Hy, Hx.
Qed.

Lemma stl_figure_time_axis_witness :
  exists (fig : StlFigure) (time_axis : list Z),
    stl_analysis runtime_without_scipy example_df "NO1" "hydro" 24 7 None true
    = Return (Some fig, None)
    /\ Sorted Z.le time_axis
    /\ Forall (fun p => xdata p = time_axis /\ length (ydata p) = length time_axis)
         (axes fig).
Proof.
  destruct (stl_analysis runtime_without_scipy example_df "NO1" "hydro" 24 7 None true)
    as [[[fig|] error]|e] eqn:Hrun; try (vm_compute in Hrun; discriminate).
  destruct (stl_figure_time_axis _ _ _ _ _ _ _ _ _ _ example_df_distinct Hrun)
    as (time_axis & others & Hsorted & _ & _ & Haligned).
  exists fig, time_axis. split; [|split; assumption].
  vm_compute in Hrun. injection Hrun as _ <-. reflexivity.
Defined.

(** ** What the page shows *)

(** X5. The "Run STL Analysis" button shows one of four things: the
    LibraryUnavailable message, the NoData message, a figure followed by
    the interpretation notes, or the catch-all report of an exception. It
    never shows a message together with a figure, and never an empty
    figure. *)
Theorem run_stl_button_shows (rt : Runtime) (df : DataFrame)
    (stl_price_area stl_prod_group : string) (stl_period stl_seasonal : Z)
    (stl_robust : bool) :
  let shown :=
    run_stl_button rt df stl_price_area stl_prod_group stl_period stl_seasonal stl_robust in
  shown = [st_error STL_UNAVAILABLE]
  \/ shown = [st_error NO_DATA]
  \/ (exists fig,
        shown = [st_pyplot_stl (Some fig); st_markdown "---"; st_info stl_interpretation])
  \/ (exists e, shown = [st_error ("An error occurred: " ++ e); st_exception e]).
Proof.
  unfold run_stl_button.
  generalize (if stl_seasonal mod 2 =? 0 then stl_seasonal + 1 else stl_seasonal).
  intros seasonal. unfold stl_analysis.
  destruct (_STL_AVAILABLE rt); simpl; [|left; reflexivity].
  destruct (length (select_rows df stl_price_area stl_prod_group) =? 0)%nat;
    [right; left; reflexivity|].
  destruct (STL rt) as [stl|]; [|do 3 right; eexists; reflexivity].
  destruct (stl _ stl_period seasonal None stl_robust) as [result|e]; simpl;
    [|do 3 right; eexists; reflexivity].
  repeat (match goal with
          | |- context [plot ?l ?x ?y] =>
              destruct (plot l x y); simpl; [|do 3 right; eexists; reflexivity]
          end).
  right; right; left. eexists. reflexivity.
Qed.

(** X6. The "Create Spectrogram" button shows one of five things: one of the
    three messages (NoData, invalid window, not enough data), a figure
    followed by the key-frequency notes, or the catch-all report of an
    exception. *)
Theorem run_spectrogram_button_shows (rt : Runtime) (df : DataFrame)
    (spec_price_area spec_prod_group : string) (spec_window spec_overlap : Z) :
  let shown :=
    run_spectrogram_button rt df spec_price_area spec_prod_group spec_window spec_overlap in
  shown = [st_error NO_DATA]
  \/ shown = [st_error INVALID_WINDOW]
  \/ shown = [st_error NOT_ENOUGH_DATA]
  \/ (exists fig,
        shown = [st_pyplot_spectrogram (Some fig); st_markdown "---"; st_info spec_key_freq])
  \/ (exists e, shown = [st_error ("An error occurred: " ++ e); st_exception e]).
Proof.
  unfold run_spectrogram_button.
  destruct (select_rows df spec_price_area spec_prod_group) as [|r rows] eqn:Hsel.
  - left. unfold spectrogram_analysis. rewrite Hsel. reflexivity.
  - assert (Hrows : select_rows df spec_price_area spec_prod_group <> []) by congruence.
    assert (Hway : (exists sg, _SCIPY_AVAILABLE rt = true /\ signal rt = Some sg)
                   \/ (_SCIPY_AVAILABLE rt = false \/ signal rt = None)).
    { destruct (_SCIPY_AVAILABLE rt); [|now right; left].
      destruct (signal rt) as [sg|]; [left; eauto | now right; right]. }
    destruct Hway as [(sg & Hflag & Hsig) | Hfb].
    + unfold spectrogram_analysis. rewrite Hsel, Hflag, Hsig. cbn [length Nat.eqb].
      destruct (sg _ _ _ spec_window spec_overlap) as [[[f t] S]|e]; simpl.
      * do 3 right; left. eexists. reflexivity.
      * do 4 right. eexists. reflexivity.
    + rewrite spectrogram_analysis_fallback by assumption.
      assert (Hn : 1 <= len (bfill (ffill (selected_values df spec_price_area spec_prod_group)))).
      { unfold len. rewrite length_selected_filled, Hsel. simpl. lia. }
      destruct (spectrogram_degenerate_cases (np rt) _ spec_window spec_overlap Hn)
        as [(_ & ->) | [(_ & _ & ->) | (_ & _ & [[f t] S] & ->)]].
      * right; left. reflexivity.
      * right; right; left. reflexivity.
      * do 3 right; left. eexists. reflexivity.
Qed.

(** X7. [stl_analysis] does not turn a failure of the STL fit into a message:
    the exception leaves the function, and the page's outer handler
    reports it as "An error occurred: ..." followed by the trace. *)
Theorem stl_failure_reaches_catch_all (rt : Runtime) (df : DataFrame)
    (stl_price_area stl_prod_group : string) (stl_period stl_seasonal : Z)
    (stl_robust : bool) (stl : STL_type) (e : string) :
  let rows := sort_values (select_rows df stl_price_area stl_prod_group) in
  let ts := {| index := map startTime_parsed rows;
               values := bfill (ffill (map quantityKwh rows)) |} in
  _STL_AVAILABLE rt = true ->
  STL rt = Some stl ->
  select_rows df stl_price_area stl_prod_group <> [] ->
  Z.odd stl_seasonal = true ->
  stl ts stl_period stl_seasonal None stl_robust = Raise e ->
  stl_analysis rt df stl_price_area stl_prod_group stl_period stl_seasonal None stl_robust
  = Raise e
  /\ run_stl_button rt df stl_price_area stl_prod_group stl_period stl_seasonal stl_robust
     = [st_error ("An error occurred: " ++ e); st_exception e].
Proof.
  intros rows ts Havailable Hstl Hrows Hodd Hfit.
  assert (Hrun : stl_analysis rt df stl_price_area stl_prod_group stl_period stl_seasonal
                   None stl_robust = Raise e).
  { unfold stl_analysis. rewrite Havailable, Hstl. simpl.
    destruct (select_rows df stl_price_area stl_prod_group) as [|r others] eqn:Hsel;
      [congruence|].
    cbn [length Nat.eqb]. fold rows. fold ts. rewrite Hfit. reflexivity. }
  split; [exact Hrun|].
  unfold run_stl_button.
  apply Z.odd_spec in Hodd. destruct Hodd as [h Hh].
  replace (stl_seasonal mod 2) with 1 by (apply (Z.mod_unique_pos _ _ h); lia).
  simpl. rewrite Hrun. reflexivity.
Qed.

Lemma stl_failure_reaches_catch_all_witness :
  run_stl_button runtime_without_scipy example_df "NO1" "hydro" 24 1 true
  = [st_error "An error occurred: ValueError: seasonal must be an odd positive integer >= 3";
     st_exception "ValueError: seasonal must be an odd positive integer >= 3"].
Proof.
  apply (stl_failure_reaches_catch_all runtime_without_scipy example_df "NO1" "hydro"
           24 1 true example_STL
           "ValueError: seasonal must be an odd positive integer >= 3");
    solve [reflexivity | discriminate].
Defined.

(** X8. With scipy available and a non-empty selection of rows with distinct
    timestamps, [spectrogram_analysis]
    hands the filled series to [signal.spectrogram] with [fs = 1.0], a
    Hann window and the two settings unchanged. It plots what scipy
    returns and lets an exception of scipy through; it never returns one
    of its own messages, whatever the window settings. *)
Theorem spectrogram_analysis_with_scipy (rt : Runtime) (df : DataFrame)
    (price_area production_group : string) (window_length window_overlap : Z)
    (scipy_signal : spectrogram_type) :
  let production := bfill (ffill (selected_values df price_area production_group)) in
  let result :=
    spectrogram_analysis rt df price_area production_group window_length window_overlap in
  _SCIPY_AVAILABLE rt = true ->
  signal rt = Some scipy_signal ->
  select_rows df price_area production_group <> [] ->
  distinct_timestamps (select_rows df price_area production_group) ->
  match scipy_signal production 1%float "hann"%string window_length window_overlap with
  | Return (frequencies, times, Sxx) =>
      exists title,
        result = Return (Some {| spec_title := title;
                                 spec_times := times;
                                 spec_frequencies := frequencies;
                                 spec_Sxx_db := to_db (np rt) Sxx |},
                         None)
  | Raise e => result = Raise e
  end
  /\ forall message, result <> Return (None, Some message).
Proof.
  intros production result Hflag Hsig Hrows _. subst result production.
  unfold spectrogram_analysis, selected_values.
  destruct (select_rows df price_area production_group) as [|r rows] eqn:Hsel;
    [congruence|].
  cbn [length Nat.eqb]. rewrite Hflag, Hsig.
  destruct (scipy_signal _ _ _ window_length window_overlap) as [[[f t] S]|e]; simpl.
  - split; [eexists; reflexivity | discriminate].
  - split; [reflexivity | discriminate].
Qed.

Lemma spectrogram_analysis_with_scipy_witness :
  spectrogram_analysis runtime_with_scipy example_df "NO1" "hydro" 0 0
  = Raise "ValueError: nperseg must be a positive integer".
Proof.
  destruct (spectrogram_analysis_with_scipy runtime_with_scipy example_df "NO1" "hydro"
              0 0 example_signal eq_refl eq_refl) as [Hrun _];
    [discriminate | exact example_df_distinct |].
  exact Hrun.
Defined.

(** ** Which value fills a gap *)

Lemma ffill_from_run (p : float) (l : list float) (i : nat) :
  (forall k : nat, (k <= i)%nat -> exists y, l !! k = Some y /\ is_nan y = true) ->
  ffill_from (Some p) l !! i = Some p.
Proof.
  revert i. induction l as [|y rest IH]; intros i Hrun.
  - destruct (Hrun 0%nat ltac:(lia)) as (? & Hnone & _). discriminate.
  - destruct (Hrun 0%nat ltac:(lia)) as (y0 & [= <-] & Hy). simpl. rewrite Hy.
    destruct i as [|i]; [reflexivity|]. simpl. apply IH.
    intros k Hk. apply (Hrun (S k)). lia.
Qed.

Lemma ffill_from_nearest (prev : option float) (l : list float) (i j : nat) (x : float) :
  l !! j = Some x -> valid x -> (j <= i)%nat ->
  (forall k : nat, (j < k <= i)%nat -> exists y, l !! k = Some y /\ is_nan y = true) ->
  ffill_from prev l !! i = Some x.
Proof.
  revert prev i j. induction l as [|y rest IH]; intros prev i j Hj Hx Hji Hgap;
    [discriminate|].
  destruct j as [|j].
  - injection Hj as ->. simpl. rewrite Hx.
    destruct i as [|i]; [reflexivity|]. simpl. apply ffill_from_run.
    intros k Hk. apply (Hgap (S k)). lia.
  - destruct i as [|i]; [lia|].
    assert (Hrest : forall prev', ffill_from prev' rest !! i = Some x).
    { intros prev'. apply (IH prev' i j); [exact Hj|exact Hx|lia|].
      intros k Hk. apply (Hgap (S k)). lia. }
    simpl. destruct (is_nan y); simpl; apply Hrest.
Qed.

Lemma ffill_leading (l : list float) (i j : nat) :
  (forall k : nat, (k < j)%nat -> exists y, l !! k = Some y /\ is_nan y = true) ->
  (i < j)%nat -> ffill_from None l !! i = l !! i.
Proof.
  revert i j. induction l as [|y rest IH]; intros i j Hgap Hij; [reflexivity|].
  destruct (Hgap 0%nat ltac:(lia)) as (y0 & [= <-] & Hy). simpl. rewrite Hy.
  destruct i as [|i]; [reflexivity|]. simpl.
  destruct j as [|j]; [lia|]. apply (IH i j); [|lia].
  intros k Hk. apply (Hgap (S k)). lia.
Qed.

Lemma bfill_leading (m : list float) (i j : nat) (x : float) :
  m !! j = Some x -> valid x ->
  (forall k : nat, (k < j)%nat -> exists y, m !! k = Some y /\ is_nan y = true) ->
  (i <= j)%nat -> bfill m !! i = Some x.
Proof.
  revert m i. induction j as [|j IH]; intros m i Hj Hx Hgap Hij.
  - destruct m as [|y rest]; [discriminate|]. injection Hj as ->.
    replace i with 0%nat by lia. simpl. rewrite Hx. reflexivity.
  - destruct m as [|y rest]; [discriminate|].
    destruct (Hgap 0%nat ltac:(lia)) as (y0 & [= <-] & Hy).
    assert (Hrest : forall i', (i' <= j)%nat -> bfill rest !! i' = Some x).
    { intros i' Hi'. apply IH; [exact Hj|exact Hx| |exact Hi'].
      intros k Hk. apply (Hgap (S k)). lia. }
    simpl. rewrite Hy.
    pose proof (Hrest 0%nat ltac:(lia)) as Hhead.
    destruct (bfill rest) as [|z tl]; [discriminate|]. injection Hhead as ->.
    destruct i as [|i]; [reflexivity|]. simpl.
    apply (Hrest i). lia.
Qed.

(** X9. A missing value after a valid one takes the nearest earlier valid
    value: when position [j] holds a valid [x] and every position after
    [j] up to [i] is missing, the filled series holds [x] at [i]. *)
Theorem fill_carries_forward (df : DataFrame) (price_area production_group : string)
    (i j : nat) (x : float) :
  let raw := selected_values df price_area production_group in
  raw !! j = Some x -> valid x -> (j <= i)%nat ->
  (forall k : nat, (j < k <= i)%nat -> exists y, raw !! k = Some y /\ is_nan y = true) ->
  bfill (ffill raw) !! i = Some x.
Proof.
  intros raw Hj Hx Hji Hgap.
  apply bfill_keeps; [|exact Hx].
  apply (ffill_from_nearest None raw i j); assumption.
Qed.

Lemma fill_carries_forward_witness :
  bfill (ffill (selected_values example_df "NO1" "hydro")) !! 2%nat = Some 20%float.
Proof.
  apply (fill_carries_forward example_df "NO1" "hydro" 2 1 20%float);
    [reflexivity | reflexivity | lia |].
  intros k Hk. assert (k = 2%nat) as -> by lia. exists nan. split; reflexivity.
Defined.

(** X10. A leading gap takes the first valid value: when position [j] holds a
    valid [x] and every earlier position is missing, the filled series
    holds [x] at every position up to [j]. *)
Theorem fill_leading_gap (df : DataFrame) (price_area production_group : string)
    (i j : nat) (x : float) :
  let raw := selected_values df price_area production_group in
  raw !! j = Some x -> valid x -> (i <= j)%nat ->
  (forall k : nat, (k < j)%nat -> exists y, raw !! k = Some y /\ is_nan y = true) ->
  bfill (ffill raw) !! i = Some x.
Proof.
  intros raw Hj Hx Hij Hgap.
  apply (bfill_leading (ffill raw) i j x).
  - apply ffill_from_keeps; assumption.
  - exact Hx.
  - intros k Hk. unfold ffill. rewrite (ffill_leading raw k j) by assumption.
    apply Hgap, Hk.
  - exact Hij.
Qed.

(** X11. A selection whose values are all missing stays all missing: neither
    fill has a value to carry, and the analyses receive the gaps. *)
Theorem fill_all_missing (df : DataFrame) (price_area production_group : string) :
  let raw := selected_values df price_area production_group in
  Forall (fun x => is_nan x = true) raw ->
  length (bfill (ffill raw)) = length raw
  /\ Forall (fun x => is_nan x = true) (bfill (ffill raw)).
Proof.
  intros raw Hall. split.
  - unfold ffill. now rewrite length_bfill, length_ffill_from.
  - unfold ffill. induction Hall as [|x rest Hx _ IH]; simpl; [constructor|].
    rewrite Hx. simpl. rewrite Hx.
    destruct (bfill (ffill_from None rest)) as [|y tl]; constructor;
      solve [assumption | constructor | now inversion IH].
Qed.

Lemma fill_leading_gap_witness :
  bfill (ffill (selected_values leading_gap_df "NO1" "hydro")) !! 0%nat = Some 30%float.
Proof.
  apply (fill_leading_gap leading_gap_df "NO1" "hydro" 0 2 30%float);
    [reflexivity | reflexivity | lia |].
  intros k Hk. exists nan.
  destruct k as [|[|k]]; [split; reflexivity | split; reflexivity | lia].
Defined.

Lemma fill_all_missing_witness :
  Forall (fun x => is_nan x = true)
    (bfill (ffill (selected_values all_missing_df "NO1" "hydro"))).
Proof.
  apply (fill_all_missing all_missing_df "NO1" "hydro").
  repeat constructor.
Defined.

(** ** The sliders and the window settings *)

Example overlap_slider_bounds :
  spec_overlap_max 24 = Return 21 /\ spec_overlap_max 168 = Return 151
  /\ spec_overlap_max 720 = Return 648 /\ spec_overlap_default 168 = Return 84.
Proof. repeat split; reflexivity. Qed.

Lemma spec_overlap_max_below_window (spec_window : Z) :
  24 <= spec_window <= 720 ->
  exists largest, spec_overlap_max spec_window = Return largest
                  /\ 0 <= largest < spec_window.
Proof.
  intros Hrange.
  assert (Hall : forallb
                   (fun w => match spec_overlap_max w with
                             | Return m => (0 <=? m) && (m <? w)
                             | Raise _ => false
                             end)
                   (seqZ 24 697) = true) by (vm_compute; reflexivity).
  rewrite forallb_forall in Hall.
  specialize (Hall spec_window).
  destruct (spec_overlap_max spec_window) as [m|e].
  - exists m. split; [reflexivity|].
    assert (Hin : In spec_window (seqZ 24 697)).
    { apply list_elem_of_In, elem_of_seqZ. lia. }
    apply Hall in Hin. apply andb_true_iff in Hin. lia.
  - exfalso. assert (Hin : In spec_window (seqZ 24 697)).
    { apply list_elem_of_In, elem_of_seqZ. lia. }
    apply Hall in Hin. discriminate.
Qed.

Lemma valid_window_never_invalid (rt : Runtime) (df : DataFrame)
    (price_area production_group : string) (window_length window_overlap : Z) :
  0 < window_length ->
  spectrogram_analysis rt df price_area production_group window_length window_overlap
  <> Return (None, Some INVALID_WINDOW).
Proof.
  intros HL.
  destruct (select_rows df price_area production_group) as [|r rows] eqn:Hsel.
  - unfold spectrogram_analysis. rewrite Hsel. discriminate.
  - assert (Hrows : select_rows df price_area production_group <> []) by congruence.
    destruct (_SCIPY_AVAILABLE rt) eqn:Hflag; [destruct (signal rt) as [sg|] eqn:Hsig|].
    + unfold spectrogram_analysis. rewrite Hsel, Hflag, Hsig. cbn [length Nat.eqb].
      destruct (sg _ _ _ window_length window_overlap) as [[[f t] S]|e]; discriminate.
    + rewrite spectrogram_analysis_fallback by (assumption || now right).
      assert (Hn : 1 <= len (bfill (ffill (selected_values df price_area production_group)))).
      { unfold len. rewrite length_selected_filled, Hsel. simpl. lia. }
      destruct (spectrogram_degenerate_cases (np rt) _ window_length window_overlap Hn)
        as [(? & _) | [(_ & _ & ->) | (_ & _ & [[f t] S] & ->)]];
        [lia | discriminate | discriminate].
    + rewrite spectrogram_analysis_fallback by (assumption || now left).
      assert (Hn : 1 <= len (bfill (ffill (selected_values df price_area production_group)))).
      { unfold len. rewrite length_selected_filled, Hsel. simpl. lia. }
      destruct (spectrogram_degenerate_cases (np rt) _ window_length window_overlap Hn)
        as [(? & _) | [(_ & _ & ->) | (_ & _ & [[f t] S] & ->)]];
        [lia | discriminate | discriminate].
Qed.

(** X12. The sliders of the spectrogram tab only produce settings within the
    precondition of the spectrogram: for a window between 24 and 720, the
    overlap slider's upper end [int(spec_window * 0.9)] is below the
    window, so every overlap it offers satisfies
    [0 <= spec_overlap < spec_window], the step is their difference, and
    the analysis never answers "Invalid window settings for spectrogram". *)
Theorem slider_settings_meet_precondition (rt : Runtime) (df : DataFrame)
    (spec_price_area spec_prod_group : string) (spec_window spec_overlap : Z) :
  24 <= spec_window <= 720 ->
  exists largest,
    spec_overlap_max spec_window = Return largest
    /\ (0 <= spec_overlap <= largest ->
        0 <= spec_overlap < spec_window
        /\ step spec_window spec_overlap = spec_window - spec_overlap
        /\ spectrogram_analysis rt df spec_price_area spec_prod_group spec_window spec_overlap
           <> Return (None, Some INVALID_WINDOW)).
Proof.
  intros Hrange.
  destruct (spec_overlap_max_below_window spec_window Hrange) as (largest & Hmax & Hlt).
  exists largest. split; [exact Hmax|].
  intros Hoverlap. split; [lia|]. split.
  - apply step_within_precondition. lia.
  - apply valid_window_never_invalid. lia.
Qed.

Lemma slider_settings_meet_precondition_witness :
  exists largest,
    spec_overlap_max 168 = Return largest
    /\ step 168 84 = 168 - 84.
Proof.
  destruct (slider_settings_meet_precondition runtime_without_scipy example_df
              "NO1" "hydro" 168 84 ltac:(lia)) as (largest & Hmax & Hsettings).
  exists largest. split; [exact Hmax|].
  apply Hsettings.
  vm_compute in Hmax. injection Hmax as <-. lia.
Defined.

(** ** Display names *)

Example display_names_of_the_pages :
  map display_name ["1_Data_Table"; "2_Data_plot"; "3_STL_and_Spectrogram"; "3_Extra_page"]%string
  = ["Data Table"; "Data Plot"; "Stl And Spectrogram"; "Extra Page"]%string.
Proof. reflexivity. Qed.

Ltac by_character c :=
  destruct c as [[] [] [] [] [] [] [] []]; repeat split; reflexivity.

Lemma upper_char_underscore c : Ascii.eqb "_" (upper_char c) = Ascii.eqb "_" c.
Proof. by_character c. Qed.

Lemma lower_char_underscore c : Ascii.eqb "_" (lower_char c) = Ascii.eqb "_" c.
Proof. by_character c. Qed.

Lemma upper_char_numbering c : is_numbering (upper_char c) = is_numbering c.
Proof. by_character c. Qed.

Lemma upper_char_titled c :
  negb (is_lower (upper_char c)) = true /\ is_cased (upper_char c) = is_cased c
  /\ upper_char (upper_char c) = upper_char c.
Proof. by_character c. Qed.

Lemma lower_char_titled c :
  negb (is_upper (lower_char c)) = true /\ is_cased (lower_char c) = is_cased c
  /\ lower_char (lower_char c) = lower_char c.
Proof. by_character c. Qed.

Lemma length_strip_numbering name :
  (String.length (strip_numbering name) <= String.length name)%nat.
Proof.
  induction name as [|c rest IH]; simpl; [lia|].
  destruct (is_numbering c); simpl; lia.
Qed.

Lemma length_replace_underscores s :
  String.length (replace_underscores s) = String.length s.
Proof. induction s as [|c rest IH]; simpl; congruence. Qed.

Lemma length_title_from b s : String.length (title_from b s) = String.length s.
Proof. revert b. induction s as [|c rest IH]; intros b; simpl; [|rewrite IH]; reflexivity. Qed.

Lemma replaced_char_clean c :
  Ascii.eqb "_" (if Ascii.eqb c "_" then " "%char else c) = false.
Proof. by_character c. Qed.

Lemma replace_underscores_clean s : has_char "_" (replace_underscores s) = false.
Proof.
  unfold has_char. induction s as [|c rest IH]; [reflexivity|].
  cbn [replace_underscores list_ascii_of_string existsb].
  now rewrite IH, replaced_char_clean.
Qed.

Lemma title_from_clean b s : has_char "_" (title_from b s) = has_char "_" s.
Proof.
  unfold has_char. revert b. induction s as [|c rest IH]; intros b; simpl; [reflexivity|].
  rewrite IH. f_equal.
  destruct b; [apply lower_char_underscore | apply upper_char_underscore].
Qed.

Lemma title_from_titled b s : titled_from b (title_from b s) = true.
Proof.
  revert b. induction s as [|c rest IH]; intros b; simpl; [reflexivity|].
  destruct (upper_char_titled c) as (Hu & Hcu & _).
  destruct (lower_char_titled c) as (Hl & Hcl & _).
  destruct b; [rewrite Hl, Hcl | rewrite Hu, Hcu]; apply IH.
Qed.

Lemma title_from_twice b s : title_from b (title_from b s) = title_from b s.
Proof.
  revert b. induction s as [|c rest IH]; intros b; simpl; [reflexivity|].
  destruct (upper_char_titled c) as (_ & Hcu & Huu).
  destruct (lower_char_titled c) as (_ & Hcl & Hll).
  destruct b; [rewrite Hll, Hcl | rewrite Huu, Hcu]; now rewrite IH.
Qed.

Lemma replace_underscores_nothing s :
  has_char "_" s = false -> replace_underscores s = s.
Proof.
  unfold has_char. induction s as [|c rest IH]; simpl; [reflexivity|].
  intros Hclean. apply orb_false_iff in Hclean. destruct Hclean as [Hc Hrest].
  rewrite IH by exact Hrest.
  destruct (Ascii.eqb_spec c "_") as [->|_]; [discriminate|reflexivity].
Qed.

Lemma strip_numbering_head name :
  match strip_numbering name with
  | String c _ => is_numbering c = false
  | EmptyString => True
  end.
Proof.
  induction name as [|c rest IH]; simpl; [exact I|].
  destruct (is_numbering c) eqn:Hc; [exact IH | exact Hc].
Qed.

(** X16. The display name of a page file holds no underscore, does not begin
    with a digit, an underscore, a hyphen or white space, is no longer
    than the file name, and reads as a title: each word starts in upper
    case and continues in lower case. *)
Theorem display_name_shape (name : string) :
  ascii_only name = true ->
  has_char "_" (display_name name) = false
  /\ match display_name name with
     | String c _ => is_numbering c = false
     | EmptyString => True
     end
  /\ (String.length (display_name name) <= String.length name)%nat
  /\ titled_from false (display_name name) = true.
Proof.
  intros _. unfold display_name, title. split; [|split; [|split]].
  - rewrite title_from_clean. apply replace_underscores_clean.
  - pose proof (strip_numbering_head name) as Hhead.
    destruct (strip_numbering name) as [|c rest]; simpl; [exact I|].
    rewrite upper_char_numbering.
    destruct (Ascii.eqb_spec c "_") as [->|_]; [discriminate Hhead | exact Hhead].
  - rewrite length_title_from, length_replace_underscores.
    apply length_strip_numbering.
  - apply title_from_titled.
Qed.

Lemma display_name_shape_witness :
  has_char "_" (display_name "3_STL_and_Spectrogram") = false
  /\ titled_from false (display_name "3_STL_and_Spectrogram") = true.
Proof.
  destruct (display_name_shape "3_STL_and_Spectrogram" eq_refl) as (Hclean & _ & _ & Htitled).
  split; assumption.
Defined.

(** X17. The numbering in front of a file name does not reach the display
    name: two files that differ only in their leading digits,
    underscores, hyphens and white space get the same name. *)
Theorem display_name_drops_numbering (numbering name : string) :
  ascii_only (numbering ++ name) = true ->
  forallb is_numbering (list_ascii_of_string numbering) = true ->
  display_name (numbering ++ name) = display_name name.
Proof.
  intros _ Hnumbering. unfold display_name. f_equal. f_equal.
  induction numbering as [|c rest IH]; simpl in *; [reflexivity|].
  apply andb_true_iff in Hnumbering. destruct Hnumbering as [Hc Hrest].
  rewrite Hc. apply IH, Hrest.
Qed.

Lemma display_name_drops_numbering_witness :
  display_name "12_ Data_Table" = display_name "Data_Table".
Proof.
  apply (display_name_drops_numbering "12_ " "Data_Table"); reflexivity.
Defined.

(** X18. [pretty_name] keeps the length of a column name, leaves no
    underscore, and changes nothing when applied to its own result. *)
Theorem pretty_name_idempotent (col : string) :
  ascii_only col = true ->
  String.length (pretty_name col) = String.length col
  /\ has_char "_" (pretty_name col) = false
  /\ pretty_name (pretty_name col) = pretty_name col.
Proof.
  intros _. unfold pretty_name, title. split; [|split].
  - now rewrite length_title_from, length_replace_underscores.
  - rewrite title_from_clean. apply replace_underscores_clean.
  - rewrite (replace_underscores_nothing (title_from false (replace_underscores col))).
    + apply title_from_twice.
    + rewrite title_from_clean. apply replace_underscores_clean.
Qed.

Lemma pretty_name_idempotent_witness :
  pretty_name (pretty_name "wind_speed_10m") = pretty_name "wind_speed_10m".
Proof.
  apply (pretty_name_idempotent "wind_speed_10m"). reflexivity.
Defined.

(** ** Month columns *)

Example month_like_names :
  map month_like
    ["2020-01"; "2020_12"; "2020-1"; "month_3"; "MONTH-12x"; "Month7"; "month"; "May"; "time"]%string
  = [true; true; false; true; true; true; false; true; false].
Proof. reflexivity. Qed.

Lemma filter_sublist {A : Type} (f : A -> bool) (l : list A) : sublist (List.filter f l) l.
Proof.
  induction l as [|x rest IH]; simpl; [constructor|].
  destruct (f x); [apply sublist_skip | apply sublist_cons]; exact IH.
Qed.

Lemma filter_empty_iff {A : Type} (f : A -> bool) (l : list A) :
  List.filter f l = [] <-> forall x, In x l -> f x = false.
Proof.
  induction l as [|y rest IH]; simpl; [tauto|].
  destruct (f y) eqn:Hy; split.
  - discriminate.
  - intros Hall. specialize (Hall y (or_introl eq_refl)). congruence.
  - intros Hnil x [<-|Hin]; [exact Hy | now apply IH].
  - intros Hall. apply IH. intros x Hin. apply Hall. now right.
Qed.

(** X19. [guess_month_like_columns] only returns columns of the table, in the
    table's order. It returns none exactly when no column looks like a
    month and none is numeric; and as soon as one column looks like a
    month it returns all such columns and nothing else, so numeric
    columns without a month name are left out. *)
Theorem guess_month_like_columns_sound (columns : list string)
    (is_numeric_dtype : string -> bool) :
  forallb ascii_only columns = true ->
  let guessed := guess_month_like_columns columns is_numeric_dtype in
  sublist guessed columns
  /\ (guessed = []
      <-> forall c, In c columns -> month_like c = false /\ is_numeric_dtype c = false)
  /\ ((exists c, In c columns /\ month_like c = true) ->
      forall c, In c guessed <-> In c columns /\ month_like c = true).
Proof.
  intros _ guessed. subst guessed. unfold guess_month_like_columns.
  destruct (List.filter month_like columns) as [|m others] eqn:Hmonths.
  - pose proof (proj1 (filter_empty_iff month_like columns) Hmonths) as Hnone.
    split; [apply filter_sublist|]. split.
    + rewrite filter_empty_iff. split.
      * intros Hnum c Hin. split; [apply Hnone | apply Hnum]; exact Hin.
      * intros Hall c Hin. apply Hall, Hin.
    + intros (c & Hin & Hc). rewrite (Hnone c Hin) in Hc. discriminate.
  - split; [rewrite <- Hmonths; apply filter_sublist|]. split.
    + split; [discriminate|]. intros Hall. exfalso.
      assert (Hin : In m (List.filter month_like columns)) by (rewrite Hmonths; now left).
      apply filter_In in Hin. destruct Hin as [Hin Hm].
      destruct (Hall m Hin) as [Hno _]. congruence.
    + intros _ c. rewrite <- Hmonths. apply filter_In.
Qed.

Lemma guess_month_like_columns_sound_witness :
  sublist (guess_month_like_columns wide_columns (fun _ => true)) wide_columns
  /\ (In "elevation"%string (guess_month_like_columns wide_columns (fun _ => true)) -> False).
Proof.
  destruct (guess_month_like_columns_sound wide_columns (fun _ => true) eq_refl)
    as (Hsub & _ & Honly).
  split; [exact Hsub|].
  intros Hin. apply Honly in Hin.
  - destruct Hin as [_ Hmonth]. discriminate Hmonth.
  - exists "2020-01"%string. split; [right; left; reflexivity | reflexivity].
Defined.

(** ** The column range of the plot page *)

Lemma list_index_found (x : string) (l : list string) :
  In x l -> exists i : nat, list_index x l = Return (Z.of_nat i) /\ l !! i = Some x.
Proof.
  induction l as [|y rest IH]; simpl; [tauto|].
  intros Hin. destruct (String.eqb_spec y x) as [->|Hne].
  - exists 0%nat. split; reflexivity.
  - destruct Hin as [Heq|Hin]; [congruence|].
    destruct (IH Hin) as (i & Hi & Hget). exists (S i). rewrite Hi. simpl.
    split; [f_equal; lia | exact Hget].
Qed.

Lemma slice_between (l : list string) (si ei : nat) (x y : string) :
  l !! si = Some x -> l !! ei = Some y -> (si <= ei)%nat ->
  let cols := py_slice l (Z.of_nat si) (Z.of_nat ei + 1) in
  In x cols /\ In y cols /\ exists before after, l = (before ++ cols ++ after)%list.
Proof.
  intros Hx Hy Hle cols. subst cols. rewrite py_slice_nonneg by lia.
  replace (Z.to_nat (Z.of_nat ei + 1 - Z.of_nat si)) with (S (ei - si)) by lia.
  rewrite Nat2Z.id.
  split; [|split].
  - apply list_elem_of_In, list_elem_of_lookup. exists 0%nat.
    rewrite lookup_take_lt by lia. rewrite lookup_drop, Nat.add_0_r. exact Hx.
  - apply list_elem_of_In, list_elem_of_lookup. exists (ei - si)%nat.
    rewrite lookup_take_lt by lia. rewrite lookup_drop.
    replace (si + (ei - si))%nat with ei by lia. exact Hy.
  - exists (take si l), (drop (S (ei - si)) (drop si l)).
    now rewrite take_drop, take_drop.
Qed.

(** X20. On the plot page without a time column, the chosen columns are a
    run of consecutive month columns that contains both slider ends, and
    they are the same whichever end is taken as the start. *)
Theorem chosen_cols_between (month_cols : list string) (start end_ : string) :
  In start month_cols -> In end_ month_cols ->
  exists cols,
    chosen_cols month_cols start end_ = Return cols
    /\ chosen_cols month_cols end_ start = Return cols
    /\ In start cols /\ In end_ cols
    /\ exists before after, month_cols = (before ++ cols ++ after)%list.
Proof.
  intros Hstart Hend.
  destruct (list_index_found start month_cols Hstart) as (si & Hsi & Hs).
  destruct (list_index_found end_ month_cols Hend) as (ei & Hei & He).
  unfold chosen_cols. rewrite Hsi, Hei. simpl.
  destruct (Z.leb_spec (Z.of_nat si) (Z.of_nat ei)) as [Hle|Hgt].
  - destruct (slice_between month_cols si ei start end_ Hs He ltac:(lia))
      as (Hin1 & Hin2 & Hrun).
    eexists. split; [reflexivity|]. split; [|repeat split; assumption].
    destruct (Z.leb_spec (Z.of_nat ei) (Z.of_nat si)) as [Hback|_]; [|reflexivity].
    assert (si = ei) as -> by lia. reflexivity.
  - destruct (slice_between month_cols ei si end_ start He Hs ltac:(lia))
      as (Hin1 & Hin2 & Hrun).
    eexists. split; [reflexivity|]. split; [|repeat split; assumption].
    destruct (Z.leb_spec (Z.of_nat ei) (Z.of_nat si)) as [_|?]; [reflexivity|lia].
Qed.

Lemma chosen_cols_between_witness :
  chosen_cols wide_columns "2020-03" "2020-01"
  = chosen_cols wide_columns "2020-01" "2020-03".
Proof.
  destruct (chosen_cols_between wide_columns "2020-03" "2020-01") as (cols & -> & -> & _).
  - right; right; right; left. reflexivity.
  - right; left. reflexivity.
  - reflexivity.
Defined.

(** ** The spectrogram of the NumPy branch *)

(** X13. Without scipy, a non-empty selection of rows with distinct
    timestamps, longer than the overlap, and a
    positive window give a figure: its title names the selection and the
    two settings, its time bins are [0, step, 2*step, ...], one per
    segment, its frequency bins are [rfftfreq(window_length)], and its
    columns are the segments' power in decibels. *)
Theorem spectrogram_fallback_figure (rt : Runtime) (df : DataFrame)
    (price_area production_group : string) (window_length window_overlap : Z) :
  let production := bfill (ffill (selected_values df price_area production_group)) in
  let segs := segments (len production) window_length window_overlap in
  let window := hanning (np rt) window_length in
  let win_norm := np_sum (np rt) (map (fun w => w * w)%float window) in
  _SCIPY_AVAILABLE rt = false \/ signal rt = None ->
  select_rows df price_area production_group <> [] ->
  distinct_timestamps (select_rows df price_area production_group) ->
  0 < window_length ->
  window_overlap < len production ->
  spectrogram_analysis rt df price_area production_group window_length window_overlap
  = Return
      (Some {| spec_title :=
                 "Spectrogram: " ++ production_group ++ " Production in " ++ price_area
                 ++ newline ++ "Window: " ++ str window_length
                 ++ "h, Overlap: " ++ str window_overlap ++ "h";
               spec_times :=
                 map (fun i => astype_float (np rt) (i * step window_length window_overlap))
                     (range segs);
               spec_frequencies := rfftfreq (np rt) window_length;
               spec_Sxx_db :=
                 map (fun i =>
                        map (fun p => 10 * log10 (np rt) (p + 1e-10))%float
                            (power_column (np rt) window win_norm
                               (segment production window_length window_overlap i)))
                     (range segs) |},
       None)
  /\ len (range segs) = segs /\ 0 < segs.
Proof.
  intros production segs window win_norm Hfallback Hrows _ HL Hlong.
  split.
  - rewrite spectrogram_analysis_fallback by assumption. fold production.
    rewrite fallback_stft_computes; try assumption.
    + unfold to_db. rewrite map_map. reflexivity.
    + subst production. unfold len. rewrite length_selected_filled.
      destruct (select_rows df price_area production_group); [congruence|simpl; lia].
  - pose proof (segments_bounds (len production) window_length window_overlap) as Hb.
    pose proof (segments_zero_iff (len production) window_length window_overlap) as Hz.
    fold segs in Hb, Hz. rewrite length_range.
    destruct (Z.eq_dec segs 0) as [E|E]; [apply Hz in E|]; lia.
Qed.

Lemma spectrogram_fallback_figure_witness :
  exists fig,
    spectrogram_analysis runtime_without_scipy example_df "NO1" "hydro" 4 2
    = Return (Some fig, None)
    /\ spec_times fig = [0; 2]%float.
Proof.
  eexists. split.
  - apply (spectrogram_fallback_figure runtime_without_scipy example_df "NO1" "hydro" 4 2);
      solve [left; reflexivity | discriminate | reflexivity | exact example_df_distinct].
  - reflexivity.
Defined.

(** X14. With [0 <= window_overlap < window_length], the segments of the NumPy
    branch leave no sample out: every sample of the series lies in some
    segment, at the offset the segment's start gives it. *)
Theorem segments_cover_series (production : list float)
    (window_length window_overlap t : Z) :
  0 <= window_overlap < window_length ->
  0 <= t < len production ->
  window_overlap < len production ->
  exists i k : Z,
    0 <= i < segments (len production) window_length window_overlap
    /\ 0 <= k < window_length
    /\ t = i * step window_length window_overlap + k
    /\ segment production window_length window_overlap i !! Z.to_nat k
       = production !! Z.to_nat t.
Proof.
  intros Hpre Ht Hlong.
  pose proof (step_within_precondition _ _ Hpre) as Hstep.
  set (s := step window_length window_overlap) in *.
  set (n := len production) in *.
  assert (Hs : 0 < s) by lia.
  assert (Hsegs : segments n window_length window_overlap = (n - window_overlap + s - 1) / s).
  { unfold segments. fold s. apply Z.max_r. apply Z.div_pos; lia. }
  set (segs := (n - window_overlap + s - 1) / s) in *.
  assert (Hreach : n - window_overlap <= segs * s).
  { pose proof (Z.mod_pos_bound (n - window_overlap + s - 1) s Hs) as Hm.
    pose proof (Z.div_mod (n - window_overlap + s - 1) s ltac:(lia)) as Hd.
    fold segs in Hd. nia. }
  assert (Hpos : 1 <= segs).
  { subst segs. apply Z.div_le_lower_bound; lia. }
  pose proof (Z.div_mod t s ltac:(lia)) as Hdm.
  pose proof (Z.mod_pos_bound t s Hs) as Hmod.
  assert (Hq : 0 <= t / s) by (apply Z.div_pos; lia).
  assert (Hcover : exists i k, 0 <= i < segs /\ 0 <= k < window_length /\ t = i * s + k).
  { destruct (Z_lt_le_dec (t / s) segs) as [Hin|Hlast].
    - exists (t / s), (t mod s). repeat split; lia.
    - exists (segs - 1), (t - (segs - 1) * s). repeat split; nia. }
  destruct Hcover as (i & k & Hi & Hk & Heq).
  exists i, k. rewrite Hsegs. repeat split; try lia.
  fold s. rewrite segment_lookup by lia. fold s. rewrite <- Heq.
  destruct (production !! Z.to_nat t) as [x|] eqn:Hx; [reflexivity|].
  apply lookup_ge_None in Hx. unfold n, len in Ht. lia.
Qed.

Lemma segments_cover_series_witness :
  exists i k : Z,
    0 <= i < segments 10 4 2 /\ 0 <= k < 4
    /\ segment ten_samples 4 2 i !! Z.to_nat k = Some 10%float.
Proof.
  destruct (segments_cover_series ten_samples 4 2 9) as (i & k & Hi & Hk & _ & Hget);
    [lia | vm_compute; split; [discriminate | reflexivity] | reflexivity |].
  exists i, k. split; [exact Hi|]. split; [exact Hk|].
  rewrite Hget. reflexivity.
Defined.

(** ** The options of the select boxes *)

Lemma unique_from_spec (seen l : list string) :
  (forall x, In x (unique_from seen l) <-> In x l /\ ~ In x seen)
  /\ List.NoDup (unique_from seen l).
Proof.
  revert seen. induction l as [|y rest IH]; intros seen; simpl.
  - split; [tauto | apply List.NoDup_nil].
  - destruct (existsb (String.eqb y) seen) eqn:Hseen.
    + apply existsb_exists in Hseen. destruct Hseen as (z & Hz & Heq).
      apply String.eqb_eq in Heq. subst z.
      destruct (IH seen) as [Hin Hnd]. split; [|exact Hnd].
      intros x. rewrite Hin. split; [tauto|].
      intros [[<-|Hx] Hno]; [contradiction | tauto].
    + assert (Hfresh : ~ In y seen).
      { intros Hy. assert (existsb (String.eqb y) seen = true); [|congruence].
        apply existsb_exists. exists y. split; [exact Hy | apply String.eqb_refl]. }
      destruct (IH (y :: seen)) as [Hin Hnd]. split.
      * intros x. split.
        -- intros [<-|Hx]; [split; [now left | exact Hfresh]|].
           apply Hin in Hx. destruct Hx as [Hx Hno]. split; [now right|].
           intros Hs. apply Hno. now right.
        -- intros [[<-|Hx] Hno]; [now left|].
           destruct (String.eqb_spec y x) as [->|Hne]; [now left|].
           right. apply Hin. split; [exact Hx|].
           intros [Heq|Hs]; [congruence | contradiction].
      * apply List.NoDup_cons; [|exact Hnd]. intros Hy. apply Hin in Hy.
        destruct Hy as [_ Hno]. apply Hno. now left.
Qed.

Lemma insert_sorted_permutation x l : Permutation (insert_sorted x l) (x :: l).
Proof.
  induction l as [|y rest IH]; simpl; [reflexivity|].
  destruct (String.leb x y); [reflexivity|].
  rewrite IH. apply perm_swap.
Qed.

Lemma sorted_permutation l : Permutation (sorted l) l.
Proof.
  induction l as [|x rest IH]; simpl; [reflexivity|].
  rewrite insert_sorted_permutation. now apply perm_skip.
Qed.

Lemma insert_sorted_ascending x l :
  Sorted (fun a b => String.leb a b = true) l ->
  Sorted (fun a b => String.leb a b = true) (insert_sorted x l).
Proof.
  induction 1 as [|y rest Hrest IH Hhd]; simpl.
  - repeat constructor.
  - destruct (String.leb x y) eqn:Hxy.
    + repeat constructor; assumption.
    + assert (Hyx : String.leb y x = true).
      { destruct (String.leb_total x y) as [H|H]; [congruence | exact H]. }
      constructor; [exact IH|].
      destruct rest as [|z rest']; simpl.
      * constructor. exact Hyx.
      * inversion Hhd; subst. destruct (String.leb x z); constructor; assumption.
Qed.

Lemma sorted_ascending l : Sorted (fun a b => String.leb a b = true) (sorted l).
Proof.
  induction l as [|x rest IH]; [constructor|].
  apply insert_sorted_ascending, IH.
Qed.

Lemma sorted_unique_spec (l : list string) :
  (forall x, In x (sorted (unique l)) <-> In x l)
  /\ List.NoDup (sorted (unique l))
  /\ Sorted (fun a b => String.leb a b = true) (sorted (unique l)).
Proof.
  destruct (unique_from_spec [] l) as [Hin Hnd]. fold (unique l) in Hin, Hnd.
  split; [|split].
  - intros x. split.
    + intros Hx. apply (Permutation_in _ (sorted_permutation _)) in Hx.
      apply Hin in Hx. tauto.
    + intros Hx. apply (Permutation_in _ (Permutation_sym (sorted_permutation _))).
      apply Hin. simpl. tauto.
  - apply (Permutation_NoDup (Permutation_sym (sorted_permutation _))). exact Hnd.
  - apply sorted_ascending.
Qed.

(** X15. The price-area select box offers exactly the areas that occur in the
    data, each once and in ascending order, and likewise for the
    production groups. Every offered area has data for at least one
    offered group, so the NoData message can only come from a pair that
    does not occur together. *)
Theorem select_box_options (df : DataFrame) :
  (forall a, In a (price_areas df) <-> exists r, In r df /\ priceArea r = a)
  /\ (forall g, In g (production_groups df) <-> exists r, In r df /\ productionGroup r = g)
  /\ List.NoDup (price_areas df) /\ List.NoDup (production_groups df)
  /\ Sorted (fun a b => String.leb a b = true) (price_areas df)
  /\ Sorted (fun a b => String.leb a b = true) (production_groups df)
  /\ (forall a, In a (price_areas df) ->
        exists g, In g (production_groups df) /\ select_rows df a g <> []).
Proof.
  unfold price_areas, production_groups.
  destruct (sorted_unique_spec (map priceArea df)) as (Ha & Hnda & Hsa).
  destruct (sorted_unique_spec (map productionGroup df)) as (Hg & Hndg & Hsg).
  assert (Hareas : forall a, In a (sorted (unique (map priceArea df)))
                             <-> exists r, In r df /\ priceArea r = a).
  { intros a. rewrite Ha, in_map_iff. split; intros (r & H1 & H2); exists r; tauto. }
  assert (Hgroups : forall g, In g (sorted (unique (map productionGroup df)))
                              <-> exists r, In r df /\ productionGroup r = g).
  { intros g. rewrite Hg, in_map_iff. split; intros (r & H1 & H2); exists r; tauto. }
  repeat (split; [assumption|]).
  intros a Hin. apply Hareas in Hin. destruct Hin as (r & Hr & <-).
  exists (productionGroup r). split; [apply Hgroups; eauto|].
  intros Hempty.
  assert (Hsel : In r (select_rows df (priceArea r) (productionGroup r))).
  { unfold select_rows. apply filter_In. split; [exact Hr|].
    now rewrite !String.eqb_refl. }
  rewrite Hempty in Hsel. destruct Hsel.
Qed.

Example options_of_the_example :
  price_areas example_df = ["NO1"; "NO2"]%string
  /\ production_groups example_df = ["hydro"; "wind"]%string
  /\ select_rows example_df "NO1" "wind" = [].
Proof. repeat split. Qed.

(** ** Navigation *)

Lemma navigate_fold (pressed : nat -> bool) (i : nat) (p : Page)
    (pages : list Page) (offset : nat) (page : string) :
  pages !! i = Some p ->
  pressed (offset + i)%nat = true ->
  (forall j : nat, pressed j = true -> j = (offset + i)%nat) ->
  fold_left (fun page ip => if pressed (fst ip) then path (snd ip) else page)
            (combine (seq offset (length pages)) pages) page
  = path p.
Proof.
  revert i offset page. induction pages as [|q rest IH]; intros i offset page Hi Hp Honly;
    [discriminate|].
  simpl. destruct i as [|i].
  - injection Hi as ->. rewrite Nat.add_0_r in Hp. rewrite Hp.
    clear IH.
    assert (Hafter : forall (l : list Page) (k : nat), (offset < k)%nat ->
              fold_left (fun page ip => if pressed (fst ip) then path (snd ip) else page)
                        (combine (seq k (length l)) l) (path p) = path p).
    { induction l as [|r l IHl]; intros k Hk; [reflexivity|]. simpl.
      destruct (pressed k) eqn:Hpk; [apply Honly in Hpk; lia|].
      apply IHl. lia. }
    apply Hafter. lia.
  - destruct (pressed offset) eqn:Hpo; [apply Honly in Hpo; lia|].
    apply (IH i (S offset)); [exact Hi | | ].
    + now replace (S offset + i)%nat with (offset + S i)%nat by lia.
    + intros j Hj. apply Honly in Hj. lia.
Qed.

Lemma find_match_first (pages : list Page) (i : nat) (p : Page) :
  pages !! i = Some p ->
  List.NoDup (map path pages) ->
  find_match pages (path p) = Some p.
Proof.
  revert i. induction pages as [|q rest IH]; intros i Hi Hnd; [discriminate|].
  simpl. destruct (String.eqb_spec (path q) (path p)) as [Heq|Hne].
  - destruct i as [|i]; [now injection Hi as -> |]. exfalso.
    inversion Hnd as [|? ? Hfresh _]; subst. apply Hfresh. rewrite Heq.
    apply in_map. apply list_elem_of_In, list_elem_of_lookup. eauto.
  - destruct i as [|i]; [injection Hi as ->; congruence|].
    apply (IH i Hi). now inversion Hnd.
Qed.

Lemma find_match_none (pages : list Page) (current : string) :
  ~ In current (map path pages) -> find_match pages current = None.
Proof.
  induction pages as [|q rest IH]; simpl; [reflexivity|].
  intros Hnot. destruct (String.eqb_spec (path q) current) as [Heq|_]; [tauto|].
  apply IH. tauto.
Qed.

(** X21. Pressing the sidebar button of a discovered page leads to that page:
    when the paths of the discovered pages are distinct and none is the
    word "Home", pressing button [i] alone stores the path of page [i] in
    the session, whatever was stored before, and the runner then shows
    the display name of page [i] as header and runs its file, adding an
    error line only when running it raises. *)
Theorem pressed_page_is_shown (load_data : outcome (Z * Z))
    (load_module : string -> string -> outcome unit)
    (pages : list Page) (session : option string) (pressed : nat -> bool)
    (i : nat) (p : Page) :
  pages !! i = Some p ->
  pressed i = true ->
  (forall j : nat, pressed j = true -> j = i) ->
  List.NoDup (map path pages) ->
  path p <> "Home"%string ->
  navigate pages session false pressed = path p
  /\ dispatch load_data load_module pages (navigate pages session false pressed)
     = st_header (display p)
       :: match load_module (path p) (module_name p) with
          | Return _ => []
          | Raise e => [runner_error ("Error loading page " ++ display p ++ ": " ++ e)]
          end.
Proof.
  intros Hi Hp Honly Hnd Hhome.
  assert (Hnav : navigate pages session false pressed = path p).
  { unfold navigate, enumerate. apply (navigate_fold pressed i p pages 0); assumption. }
  split; [exact Hnav|].
  rewrite Hnav. unfold dispatch.
  destruct (String.eqb_spec (path p) "Home") as [Heq|_]; [contradiction|].
  now rewrite (find_match_first pages i p Hi Hnd).
Qed.

Lemma pressed_page_is_shown_witness :
  dispatch (Raise "no loader") (fun _ _ => Return tt) example_pages
    (navigate example_pages (Some "Home"%string) false (Nat.eqb 2))
  = [st_header "Stl And Spectrogram"].
Proof.
  apply (pressed_page_is_shown (Raise "no loader") (fun _ _ => Return tt) example_pages
           (Some "Home"%string) (Nat.eqb 2) 2
           {| module_name := "Pages.3_STL_and_Spectrogram"; display := "Stl And Spectrogram";
              path := "Pages/3_STL_and_Spectrogram.py" |}).
  - reflexivity.
  - reflexivity.
  - intros j Hj. apply Nat.eqb_eq in Hj. congruence.
  - repeat constructor; simpl; intuition discriminate.
  - discriminate.
Defined.

(** X22. A session that holds neither "Home" nor the path of a discovered
    page gets the single line "Page not found or not discovered": no
    header is shown and no file is run. With no button pressed the
    session keeps its page, and a session without a page starts at
    "Home". *)
Theorem stale_page_is_reported (load_data : outcome (Z * Z))
    (load_module : string -> string -> outcome unit)
    (pages : list Page) (current : string) :
  current <> "Home"%string ->
  ~ In current (map path pages) ->
  navigate pages (Some current) false (fun _ => false) = current
  /\ navigate pages None false (fun _ => false) = "Home"%string
  /\ dispatch load_data load_module pages current
     = [runner_error "Page not found or not discovered"].
Proof.
  intros Hhome Hnot.
  assert (Hkeep : forall page,
            fold_left (fun page (ip : nat * Page) =>
                         if (fun _ : nat => false) (fst ip) then path (snd ip) else page)
                      (enumerate pages) page = page).
  { unfold enumerate. generalize 0%nat.
    induction pages as [|q rest IH]; intros k page; [reflexivity|]. simpl.
    apply IH. simpl in Hnot. tauto. }
  split; [apply Hkeep|]. split; [apply Hkeep|].
  unfold dispatch.
  destruct (String.eqb_spec current "Home") as [Heq|_]; [contradiction|].
  now rewrite find_match_none.
Qed.

Lemma stale_page_is_reported_witness :
  dispatch (Raise "no loader") (fun _ _ => Return tt) example_pages "Pages/4_Removed.py"
  = [runner_error "Page not found or not discovered"].
Proof.
  apply (stale_page_is_reported (Raise "no loader") (fun _ _ => Return tt) example_pages
           "Pages/4_Removed.py").
  - discriminate.
  - simpl. intuition discriminate.
Defined.

(** ** Additivity and missing values *)

Example additive_example :
  additive [10; 20]%float [7; 15]%float [2; 4]%float [1; 1]%float = true
  /\ additive [10; 20]%float [7; 15]%float [2; 4]%float [1; 2]%float = false.
Proof. split; reflexivity. Qed.

(** Nothing is within the tolerance of a missing value. *)
Lemma nothing_within_tolerance_of_nan (x : float) : within_tolerance x nan = false.
Proof.
  unfold within_tolerance.
  rewrite leb_spec, abs_spec, sub_spec.
  change (Prim2SF nan) with S754_nan.
  destruct (Prim2SF x); reflexivity.
Qed.

Lemma additive_nan_original (original trend_part seasonal_part residual : list float) :
  additive (nan :: original) trend_part seasonal_part residual = false.
Proof.
  destruct trend_part as [|t ?], seasonal_part as [|s ?], residual as [|r ?];
    try reflexivity.
  simpl. now rewrite nothing_within_tolerance_of_nan.
Qed.

(** C3. The round-trip additivity fails on a valid input: the selection
    of [all_missing_df] is non-empty, the period 24 and the seasonal
    window 7 are admissible, and yet every figure [stl_analysis] returns
    for it, with whatever STL primitive, has the original series
    [nan; nan] and is not additive within 1e-6. *)
Theorem all_missing_selection_is_not_additive (rt : Runtime)
    (trend : option Z) (robust : bool) (fig : StlFigure) (error : option string) :
  stl_analysis rt all_missing_df "NO1" "hydro" 24 7 trend robust = Return (Some fig, error) ->
  select_rows all_missing_df "NO1" "hydro" <> []
  /\ 2 <= 24 /\ Z.odd 7 = true
  /\ (exists others, axes fig
                     = {| ylabel := "Original"; xdata := [0; 1]; ydata := [nan; nan]%float |}
                       :: others)
  /\ figure_is_additive fig = false.
Proof.
  unfold stl_analysis.
  destruct (_STL_AVAILABLE rt); simpl; [|discriminate].
  destruct (STL rt) as [stl|]; [|discriminate].
  destruct (stl _ 24 7 trend robust) as [result|e]; simpl; [|discriminate].
  repeat (match goal with
          | |- context [plot ?l ?x ?y] => destruct (plot l x y); simpl; [|discriminate]
          end).
  intros [= <- <-].
  split; [discriminate|]. split; [lia|]. split; [reflexivity|]. split.
  - eexists. reflexivity.
  - unfold figure_is_additive. simpl axes. apply additive_nan_original.
Qed.

Lemma all_missing_selection_is_not_additive_witness :
  exists fig,
    stl_analysis runtime_without_scipy all_missing_df "NO1" "hydro" 24 7 None true
    = Return (Some fig, None)
    /\ figure_is_additive fig = false.
Proof.
  destruct (stl_analysis runtime_without_scipy all_missing_df "NO1" "hydro" 24 7 None true)
    as [[[fig|] error]|e] eqn:Hrun; try (vm_compute in Hrun; discriminate).
  destruct (all_missing_selection_is_not_additive _ _ _ _ _ Hrun) as (_ & _ & _ & _ & Hnot).
  exists fig. split; [|exact Hnot].
  vm_compute in Hrun. injection Hrun as _ <-. reflexivity.
Defined.

(** ** The NumPy branch beside scipy *)

Example scipy_on_ten_samples :
  scipy_segments 10 4 2 = 4 /\ scipy_times 10 4 2 = [2; 4; 6; 8]%float
  /\ scipy_segments 9 4 2 = 3 /\ segments 9 4 2 = 4.
Proof. repeat split. Qed.




